(** * Blud-Dona: dashboard, request form and profile form

    A shallow embedding of [src/pages/Home.tsx] (the three screen
    controllers [Home], [NewRequest] and [Profile]) and the properties of
    its role-based view derivation, form validation and submission
    handlers. *)

From Stdlib Require Import List String Ascii Bool ZArith QArith Lia.
Import ListNotations.
Open Scope string_scope.
Set Warnings "-register-all".

(** ** JavaScript values *)

Module Js.

(** A JavaScript [number]. Every finite double is a rational and the
    comparisons of finite doubles agree with those of the rationals, so
    the finite numbers are carried by [Q]. *)
Inductive number : Type :=
| NaN
| Infinity (negative : bool)
| Finite (q : Q).

Definition Qltb (x y : Q) : bool :=
  (Qnum x * QDen y <? Qnum y * QDen x)%Z.

(** [a < b] *)
Definition lt (a b : number) : bool :=
  match a, b with
  | NaN, _ | _, NaN => false
  | Infinity true, Infinity true => false
  | Infinity true, _ => true
  | _, Infinity true => false
  | Infinity false, _ => false
  | Finite _, Infinity false => true
  | Finite x, Finite y => Qltb x y
  end.

(** [a > b] *)
Definition gt (a b : number) : bool := lt b a.

(** [Number.isInteger] *)
Definition isInteger (a : number) : bool :=
  match a with
  | Finite q => (Qnum q mod QDen q =? 0)%Z
  | _ => false
  end.

Definition of_Z (z : Z) : number := Finite (inject_Z z).

(** Values and object literals; an object keeps its own properties in
    insertion order. *)
Inductive value : Type :=
| undefined
| str (s : string)
| num (n : number)
| obj (fields : list (string * value)).

Definition object : Type := list (string * value).

Definition of_option (o : option string) : value :=
  match o with
  | Some s => str s
  | None => undefined
  end.

(** [o[k] = v]: an existing property keeps its place. *)
Fixpoint set (k : string) (v : value) (o : object) : object :=
  match o with
  | [] => [(k, v)]
  | (k', v') :: o' =>
      if String.eqb k' k then (k, v) :: o' else (k', v') :: set k v o'
  end.

(** [{ ...o, ...src }]: the properties of [src] are written in order. *)
Definition spread (o src : object) : object :=
  fold_left (fun acc kv => set (fst kv) (snd kv) acc) src o.

(** The property names of a value, those of nested objects included. *)
Fixpoint names (v : value) : list string :=
  match v with
  | obj fields => flat_map (fun kv => fst kv :: names (snd kv)) fields
  | _ => []
  end.

(** A JavaScript string is a [string], one character per code unit, so
    that [String.length] is its [.length] and [String.eqb] its [===].
    Truthiness of a string: only the empty string is falsy. *)
Definition truthy (s : string) : bool := negb (String.eqb s "").

(** [Array.prototype.filter]: the callback runs once per element, in
    order, and is handed the element's index. *)
Fixpoint filter_from {A : Type} (f : nat -> A -> bool) (i : nat)
  (l : list A) : list A :=
  match l with
  | [] => []
  | a :: l' =>
      if f i a then a :: filter_from f (S i) l' else filter_from f (S i) l'
  end.

Definition filter {A : Type} (f : nat -> A -> bool) (l : list A) : list A :=
  filter_from f 0 l.

(** A [Date], by its time value in milliseconds; [None] is an invalid
    date, whose time value is [NaN]. *)
Definition Date : Type := option Z.

(** [d > t] for a date [d] and a valid instant [t]. *)
Definition Date_gt (d : Date) (t : Z) : bool :=
  match d with
  | Some x => (t <? x)%Z
  | None => false
  end.

End Js.

(** ** Entities *)

(** Modelled from the spec: the [UserRole] enumeration of [@/types], which
    is not part of the sources (donor, requester, administrator). *)
Inductive UserRole : Type := DONOR | REQUESTER | ADMIN.

Definition UserRole_eqb (a b : UserRole) : bool :=
  match a, b with
  | DONOR, DONOR | REQUESTER, REQUESTER | ADMIN, ADMIN => true
  | _, _ => false
  end.

(** Modelled from the spec: the [UrgencyLevel] enumeration of [@/types],
    which is not part of the sources, and its string values (low, medium,
    high, critical). *)
Inductive UrgencyLevel : Type := LOW | MEDIUM | HIGH | CRITICAL.

Definition UrgencyLevel_value (u : UrgencyLevel) : string :=
  match u with
  | LOW => "low"
  | MEDIUM => "medium"
  | HIGH => "high"
  | CRITICAL => "critical"
  end.

Definition UrgencyLevel_values : list string :=
  map UrgencyLevel_value [LOW; MEDIUM; HIGH; CRITICAL].

(** Modelled from the spec: [RequestStatus.PENDING] of [@/types], which is
    not part of the sources. *)
Definition RequestStatus_PENDING : string := "pending".

(** Modelled from the spec: the entity types of [@/types] ([Location],
    [User], [BloodRequest], [Appointment], [Notification]), which are not
    part of the sources, with the fields the screens read and write. *)
Module Location.
Record t : Type := mk {
  latitude : Js.number;
  longitude : Js.number;
  address : string;
  city : string;
  state : string;
  zipCode : string;
  country : string
}.

Definition to_object (l : t) : Js.object :=
  [ ("latitude", Js.num (latitude l));
    ("longitude", Js.num (longitude l));
    ("address", Js.str (address l));
    ("city", Js.str (city l));
    ("state", Js.str (state l));
    ("zipCode", Js.str (zipCode l));
    ("country", Js.str (country l)) ].
End Location.

Module User.
Record t : Type := mk {
  id : string;
  name : string;
  email : string;
  role : UserRole;
  phoneNumber : option string;
  bloodType : option string;
  location : option Location.t
}.
End User.

Module BloodRequest.
Record t : Type := mk {
  id : string;
  requesterId : string;
  requesterName : string;
  bloodType : string;
  quantity : Js.number;
  urgency : string;
  status : string;
  location : Location.t
}.
End BloodRequest.

Module Appointment.
Record t : Type := mk {
  id : string;
  donorId : string;
  date : Js.Date
}.
End Appointment.

Module Notification.
Record t : Type := mk {
  id : string;
  read : bool
}.
End Notification.

(** ** The Data Gateway and the other collaborators *)

(** The payload [NewRequest.onSubmit] hands to [api.createBloodRequest];
    [expireAt] holds the string its [Date] is built from. *)
Module CreatePayload.
Record t : Type := mk {
  requesterId : string;
  requesterName : string;
  bloodType : string;
  quantity : Js.number;
  urgency : string;
  location : Location.t;
  status : string;
  notes : option string;
  expireAt : option string
}.
End CreatePayload.

Inductive GatewayCall : Type :=
| getBloodRequests
| getAppointments
| getNotifications (userId : string)
| createBloodRequest (payload : CreatePayload.t)
| updateUser (userId : string) (payload : Js.value).

Module Toast.
Record t : Type := mk {
  title : string;
  description : string;
  destructive : bool
}.
End Toast.

Inductive Effect : Type :=
| Gateway (call : GatewayCall)
| ConsoleError (message : string) (error : string)
| ShowToast (toast : Toast.t)
| Navigate (to : string).

Fixpoint gateway_calls (es : list Effect) : list GatewayCall :=
  match es with
  | [] => []
  | Gateway c :: es' => c :: gateway_calls es'
  | _ :: es' => gateway_calls es'
  end.

Definition is_navigate (e : Effect) : bool :=
  match e with
  | Navigate _ => true
  | _ => false
  end.

Definition is_toast (e : Effect) : bool :=
  match e with
  | ShowToast _ => true
  | _ => false
  end.

(** How a promise settles. *)
Inductive Outcome (A : Type) : Type :=
| Resolved (a : A)
| Rejected (error : string).
Arguments Resolved {A} a.
Arguments Rejected {A} error.

(** ** Handlers: local state, exceptions and a trace of effects *)

Module Handler.

Inductive Completion (A : Type) : Type :=
| Normal (a : A)
| Throw (error : string).
Arguments Normal {A} a.
Arguments Throw {A} error.

Section WithState.
Context {S : Type}.

Definition M (A : Type) : Type := S -> Completion A * S * list Effect.

Definition ret {A} (a : A) : M A := fun s => (Normal a, s, []).

Definition bind {A B} (m : M A) (k : A -> M B) : M B :=
  fun s =>
    match m s with
    | (Normal a, s1, e1) =>
        let '(r, s2, e2) := k a s1 in (r, s2, (e1 ++ e2)%list)
    | (Throw x, s1, e1) => (Throw x, s1, e1)
    end.

Definition modify (f : S -> S) : M unit := fun s => (Normal tt, f s, []).

Definition emit (e : Effect) : M unit := fun s => (Normal tt, s, [e]).

(** [await p] for a promise that settles as [o]. *)
Definition await {A} (o : Outcome A) : M A :=
  fun s =>
    match o with
    | Resolved a => (Normal a, s, [])
    | Rejected x => (Throw x, s, [])
    end.

(** [try { m } catch (error) { h error }] *)
Definition try_catch {A} (m : M A) (h : string -> M A) : M A :=
  fun s =>
    match m s with
    | (Throw x, s1, e1) =>
        let '(r, s2, e2) := h x s1 in (r, s2, (e1 ++ e2)%list)
    | done => done
    end.

(** [try { m } finally { f }] *)
Definition finally {A} (m : M A) (f : M unit) : M A :=
  fun s =>
    let '(r, s1, e1) := m s in
    match f s1 with
    | (Normal _, s2, e2) => (r, s2, (e1 ++ e2)%list)
    | (Throw x, s2, e2) => (Throw x, s2, (e1 ++ e2)%list)
    end.

Definition when (b : bool) (m : M unit) : M unit :=
  if b then m else ret tt.
End WithState.

Definition state_of {S A} (r : Completion A * S * list Effect) : S :=
  snd (fst r).

Definition effects_of {S A} (r : Completion A * S * list Effect)
  : list Effect := snd r.

Definition completion_of {S A} (r : Completion A * S * list Effect)
  : Completion A := fst (fst r).

(** [Promise.all] of two promises: it rejects with the rejection that
    happens first; [second_first] says which one wins when both reject. *)
Definition all2 {A B} (second_first : bool) (a : Outcome A) (b : Outcome B)
  : Outcome (A * B) :=
  match a, b with
  | Resolved x, Resolved y => Resolved (x, y)
  | Rejected e, Resolved _ => Rejected e
  | Resolved _, Rejected e => Rejected e
  | Rejected e1, Rejected e2 => Rejected (if second_first then e2 else e1)
  end.

End Handler.

Declare Scope handler_scope.
Delimit Scope handler_scope with handler.
Notation "x <- m ;; k" := (Handler.bind m (fun x => k))
  (at level 61, m at next level, right associativity) : handler_scope.
Notation "m ;; k" := (Handler.bind m (fun _ => k))
  (at level 61, right associativity) : handler_scope.

(** ** The dashboard ([Home]) *)

Module Home.
Import Handler.
Local Open Scope handler_scope.

Record State : Type := mkState {
  requests : list BloodRequest.t;
  appointments : list Appointment.t;
  notifications : list Notification.t;
  loading : bool
}.

(** The initial values of the four [useState] cells. *)
Definition initial : State := mkState [] [] [] true.

Definition setRequests (v : list BloodRequest.t) (s : State) : State :=
  mkState v (appointments s) (notifications s) (loading s).

Definition setAppointments (v : list Appointment.t) (s : State) : State :=
  mkState (requests s) v (notifications s) (loading s).

Definition setNotifications (v : list Notification.t) (s : State) : State :=
  mkState (requests s) (appointments s) v (loading s).

Definition setLoading (v : bool) (s : State) : State :=
  mkState (requests s) (appointments s) (notifications s) v.

(** How the three fetches of one run of the effect settle;
    [appointments_first] orders the rejections of the two joined ones. *)
Record Fetches : Type := mkFetches {
  requestsData : Outcome (list BloodRequest.t);
  appointmentsData : Outcome (list Appointment.t);
  appointments_first : bool;
  notificationsData : Outcome (list Notification.t)
}.

Definition fetchData (user : option User.t) (f : Fetches) : M (S := State) unit :=
  finally
    (try_catch
       (match user with
        | Some u =>
            emit (Gateway getBloodRequests) ;;
            emit (Gateway getAppointments) ;;
            joined <- await (all2 (appointments_first f)
                               (requestsData f) (appointmentsData f)) ;;
            when (Js.truthy (User.id u))
              (emit (Gateway (getNotifications (User.id u))) ;;
               notificationsData <- await (notificationsData f) ;;
               modify (setNotifications notificationsData)) ;;
            modify (setRequests (fst joined)) ;;
            modify (setAppointments (snd joined))
        | None => ret tt
        end)
       (fun error =>
          emit (ConsoleError "Error fetching dashboard data:" error)))
    (modify (setLoading false)).

(** Filter data based on user role. *)
Definition filteredRequests (user : User.t) (requests : list BloodRequest.t)
  : list BloodRequest.t :=
  if UserRole_eqb (User.role user) DONOR then requests
  else if UserRole_eqb (User.role user) REQUESTER then
    List.filter
      (fun request => String.eqb (BloodRequest.requesterId request) (User.id user))
      requests
  else requests.

Definition filteredAppointments (user : User.t)
  (appointments : list Appointment.t) : list Appointment.t :=
  if UserRole_eqb (User.role user) DONOR then
    List.filter
      (fun appointment => String.eqb (Appointment.donorId appointment) (User.id user))
      appointments
  else appointments.

Definition urgentRequests (filteredRequests : list BloodRequest.t)
  : list BloodRequest.t :=
  List.filter
    (fun request =>
       String.eqb (BloodRequest.urgency request) "high"
       || String.eqb (BloodRequest.urgency request) "critical")
    filteredRequests.

(** [now i] is the instant [new Date()] yields in the callback's [i]-th
    call. *)
Definition upcomingAppointments (now : nat -> Z)
  (filteredAppointments : list Appointment.t) : list Appointment.t :=
  Js.filter
    (fun i appointment => Js.Date_gt (Appointment.date appointment) (now i))
    filteredAppointments.

Definition unreadNotifications (notifications : list Notification.t)
  : list Notification.t :=
  List.filter (fun n => negb (Notification.read n)) notifications.

(** What a stat card shows: a literal text or the length of a collection. *)
Inductive CardValue : Type :=
| Text (s : string)
| Count (n : nat).

Record StatCard : Type := mkCard {
  title : string;
  value : CardValue;
  caption_count : option nat;
  caption : string
}.

Definition card1 (user : User.t) (filtered urgent : list BloodRequest.t)
  : StatCard :=
  mkCard
    (if UserRole_eqb (User.role user) ADMIN then "Total Requests"
     else if UserRole_eqb (User.role user) REQUESTER then "Your Requests"
     else "Available Requests")
    (Count (List.length filtered))
    (Some (List.length urgent))
    "urgent needs".

Definition card2 (user : User.t) (upcoming : list Appointment.t) : StatCard :=
  mkCard
    (if UserRole_eqb (User.role user) DONOR then "Your Appointments"
     else "Upcoming Appointments")
    (Count (List.length upcoming))
    None
    (if UserRole_eqb (User.role user) DONOR then "Scheduled donations"
     else "Donation sessions").

Definition card3 (user : User.t) (unread : list Notification.t) : StatCard :=
  mkCard
    (if UserRole_eqb (User.role user) ADMIN then "Total Users"
     else "Notifications")
    (if UserRole_eqb (User.role user) ADMIN then Text "4"
     else Count (List.length unread))
    None
    (if UserRole_eqb (User.role user) ADMIN then "Registered on platform"
     else "Unread messages").

Record Dashboard : Type := mkDashboard {
  welcome : string;
  newRequestButton : bool;
  statCards : StatCard * StatCard * StatCard;
  requestList : list BloodRequest.t
}.

Inductive View : Type :=
| Spinner
| Null
| Rendered (d : Dashboard).

Definition render (user : option User.t) (now : nat -> Z) (s : State) : View :=
  if loading s then Spinner
  else
    match user with
    | None => Null
    | Some u =>
        let filteredRequests := filteredRequests u (requests s) in
        let filteredAppointments := filteredAppointments u (appointments s) in
        let urgentRequests := urgentRequests filteredRequests in
        let upcomingAppointments := upcomingAppointments now filteredAppointments in
        let unreadNotifications := unreadNotifications (notifications s) in
        Rendered
          (mkDashboard
             (User.name u)
             (UserRole_eqb (User.role u) REQUESTER)
             (card1 u filteredRequests urgentRequests,
              card2 u upcomingAppointments,
              card3 u unreadNotifications)
             (firstn 5 filteredRequests))
    end.

End Home.

(** ** Schemas ([zod]) and their resolver *)

Module Zod.

Inductive IssueCode : Type :=
| invalid_type
| invalid_enum_value
| too_small
| too_big
| invalid_string.

(** An issue of a field; [message] is [None] for the library's own text. *)
Record Issue : Type := mkIssue {
  path : string;
  code : IssueCode;
  message : option string
}.

Definition Parsed (A : Type) : Type := (list (IssueCode * option string) + A)%type.

(** [z.nativeEnum(E, { required_error })] on an input that is [undefined]
    or a string. *)
Definition nativeEnum (values : list string) (required_error : option string)
  (input : option string) : Parsed string :=
  match input with
  | None => inl [(invalid_type, required_error)]
  | Some s =>
      if existsb (String.eqb s) values then inr s
      else inl [(invalid_enum_value, None)]
  end.

(** [z.number().min(lo, { message }).max(hi, { message })]: [NaN] is not a
    number; both checks run. *)
Definition number_min_max (lo : Js.number) (lo_message : string)
  (hi : Js.number) (hi_message : string) (input : Js.number)
  : Parsed Js.number :=
  match input with
  | Js.NaN => inl [(invalid_type, None)]
  | _ =>
      match
        ((if Js.lt input lo then [(too_small, Some lo_message)] else [])
         ++ (if Js.gt input hi then [(too_big, Some hi_message)] else []))%list
      with
      | [] => inr input
      | issues => inl issues
      end
  end.

(** [z.string()] *)
Definition string_ (input : string) : Parsed string := inr input.

(** [z.string().min(n, { message })] *)
Definition string_min (n : nat) (min_message : string) (input : string)
  : Parsed string :=
  if (String.length input <? n)%nat then inl [(too_small, Some min_message)]
  else inr input.

(** [z.string().email({ message })], for the library's test [format]. *)
Definition string_email (format : string -> bool) (email_message : string)
  (input : string) : Parsed string :=
  if format input then inr input else inl [(invalid_string, Some email_message)].

(** [schema.optional()] *)
Definition optional {A B : Type} (schema : A -> Parsed B) (input : option A)
  : Parsed (option B) :=
  match input with
  | None => inr None
  | Some a =>
      match schema a with
      | inr b => inr (Some b)
      | inl issues => inl issues
      end
  end.

(** The issues of the field at [key] of a [z.object]. *)
Definition at_path {A : Type} (key : string) (r : Parsed A) : list Issue :=
  match r with
  | inl issues => map (fun i => mkIssue key (fst i) (snd i)) issues
  | inr _ => []
  end.

Definition has_error (key : string) (errors : list Issue) : bool :=
  existsb (fun i => String.eqb (path i) key) errors.

End Zod.

(** ** The request-creation form ([NewRequest]) *)

Module NewRequest.
Import Handler.
Local Open Scope handler_scope.

(** The values the form holds. *)
Record FormValues : Type := mkValues {
  bloodType : option string;
  quantity : Js.number;
  urgency : option string;
  notes : option string;
  expireAt : option string
}.

Definition defaultValues : FormValues :=
  mkValues None (Js.of_Z 1) (Some (UrgencyLevel_value MEDIUM)) (Some "") None.

Module RequestFormData.
Record t : Type := mk {
  bloodType : string;
  quantity : Js.number;
  urgency : string;
  notes : option string;
  expireAt : option string
}.
End RequestFormData.

Record State : Type := mkState {
  isSubmitting : bool;
  values : FormValues;
  errors : list Zod.Issue
}.

Definition initial : State := mkState false defaultValues [].

Definition setIsSubmitting (v : bool) (s : State) : State :=
  mkState v (values s) (errors s).

Definition setErrors (v : list Zod.Issue) (s : State) : State :=
  mkState (isSubmitting s) (values s) v.

Definition placeholderLocation : Location.t :=
  Location.mk (Js.of_Z 0) (Js.of_Z 0) "Unknown" "Unknown" "Unknown" "00000"
    "Unknown".

(** The [expireAt] date input as rendered. *)
Record DateInput : Type := mkDateInput {
  type : string;
  min : string;
  value : string
}.

Definition expireAtInput (tomorrowString : string) (field : option string)
  : DateInput :=
  mkDateInput "date" tomorrowString
    (match field with
     | Some s => if Js.truthy s then s else ""
     | None => ""
     end).

Section WithBloodTypes.
(** The values of the [BloodType] enumeration of [@/types]. *)
Variable BloodType_values : list string.

Definition requestSchema (input : FormValues)
  : list Zod.Issue + RequestFormData.t :=
  let bloodType :=
    Zod.nativeEnum BloodType_values (Some "Please select a blood type")
      (bloodType input) in
  let quantity :=
    Zod.number_min_max
      (Js.of_Z 1) "Quantity must be at least 1 unit"
      (Js.of_Z 10) "Quantity cannot exceed 10 units"
      (quantity input) in
  let urgency :=
    Zod.nativeEnum UrgencyLevel_values (Some "Please select an urgency level")
      (urgency input) in
  let notes := Zod.optional Zod.string_ (notes input) in
  let expireAt := Zod.optional Zod.string_ (expireAt input) in
  match bloodType, quantity, urgency, notes, expireAt with
  | inr b, inr q, inr u, inr n, inr e => inr (RequestFormData.mk b q u n e)
  | _, _, _, _, _ =>
      inl (Zod.at_path "bloodType" bloodType
           ++ Zod.at_path "quantity" quantity
           ++ Zod.at_path "urgency" urgency
           ++ Zod.at_path "notes" notes
           ++ Zod.at_path "expireAt" expireAt)%list
  end.

Definition accepts (input : FormValues) : bool :=
  match requestSchema input with
  | inr _ => true
  | inl _ => false
  end.

Definition payload (user : User.t) (data : RequestFormData.t)
  : CreatePayload.t :=
  CreatePayload.mk
    (User.id user)
    (User.name user)
    (RequestFormData.bloodType data)
    (RequestFormData.quantity data)
    (RequestFormData.urgency data)
    (match User.location user with
     | Some location => location
     | None => placeholderLocation
     end)
    RequestStatus_PENDING
    (RequestFormData.notes data)
    (match RequestFormData.expireAt data with
     | Some s => if Js.truthy s then Some s else None
     | None => None
     end).

Definition onSubmit (user : option User.t)
  (created : Outcome BloodRequest.t) (data : RequestFormData.t)
  : M (S := State) unit :=
  match user with
  | None => ret tt
  | Some u =>
      finally
        (try_catch
           (modify (setIsSubmitting true) ;;
            emit (Gateway (createBloodRequest (payload u data))) ;;
            _ <- await created ;;
            emit (ShowToast
                    (Toast.mk "Request created"
                       "Your blood request has been successfully created."
                       false)) ;;
            emit (Navigate "/requests"))
           (fun _ =>
              emit (ShowToast
                      (Toast.mk "Error"
                         "There was a problem creating your request."
                         true))))
        (modify (setIsSubmitting false))
  end.

(** [form.handleSubmit(onSubmit)] with the schema's resolver: the handler
    runs on the parsed values only when the schema has no issue. *)
Definition handleSubmit (user : option User.t)
  (created : Outcome BloodRequest.t) : M (S := State) unit :=
  fun s =>
    match requestSchema (values s) with
    | inr data => (modify (setErrors []) ;; onSubmit user created data) s
    | inl issues => modify (setErrors issues) s
    end.

End WithBloodTypes.
End NewRequest.

(** ** The profile form ([Profile]) *)

Module Profile.
Import Handler.
Local Open Scope handler_scope.

Record FormValues : Type := mkValues {
  name : string;
  email : string;
  phoneNumber : option string;
  address : option string;
  city : option string;
  state : option string;
  zipCode : option string;
  country : option string;
  bloodType : option string
}.

Module ProfileFormData.
Record t : Type := mk {
  name : string;
  email : string;
  phoneNumber : option string;
  address : option string;
  city : option string;
  state : option string;
  zipCode : option string;
  country : option string;
  bloodType : option string
}.
End ProfileFormData.

(** The keys of [profileSchema], in the order of its shape. *)
Definition schema_fields : list string :=
  [ "name"; "email"; "phoneNumber"; "address"; "city"; "state"; "zipCode";
    "country"; "bloodType" ].

Record State : Type := mkState {
  isUpdating : bool;
  values : FormValues;
  errors : list Zod.Issue
}.

Definition setIsUpdating (v : bool) (s : State) : State :=
  mkState v (values s) (errors s).

Definition setErrors (v : list Zod.Issue) (s : State) : State :=
  mkState (isUpdating s) (values s) v.

Definition or_empty (o : option string) : string :=
  match o with
  | Some s => s
  | None => ""
  end.

Definition defaultValues (user : option User.t) : FormValues :=
  match user with
  | Some u =>
      let field (f : Location.t -> string) :=
        Some (or_empty (option_map f (User.location u))) in
      mkValues (User.name u) (User.email u)
        (Some (or_empty (User.phoneNumber u)))
        (field Location.address) (field Location.city) (field Location.state)
        (field Location.zipCode) (field Location.country)
        (User.bloodType u)
  | None =>
      mkValues "" "" (Some "") (Some "") (Some "") (Some "") (Some "")
        (Some "") None
  end.

Section WithLibrary.
(** The values of the [BloodType] enumeration of [@/types], and the test
    behind [z.string().email()]. *)
Variable BloodType_values : list string.
Variable email_format : string -> bool.

Definition profileSchema (input : FormValues)
  : list Zod.Issue + ProfileFormData.t :=
  let name :=
    Zod.string_min 2 "Name must be at least 2 characters" (name input) in
  let email :=
    Zod.string_email email_format "Please enter a valid email" (email input) in
  let phoneNumber := Zod.optional Zod.string_ (phoneNumber input) in
  let address := Zod.optional Zod.string_ (address input) in
  let city := Zod.optional Zod.string_ (city input) in
  let state := Zod.optional Zod.string_ (state input) in
  let zipCode := Zod.optional Zod.string_ (zipCode input) in
  let country := Zod.optional Zod.string_ (country input) in
  let bloodType :=
    Zod.optional (fun s => Zod.nativeEnum BloodType_values None (Some s))
      (bloodType input) in
  match name, email, phoneNumber, address, city, state, zipCode, country,
        bloodType with
  | inr n, inr e, inr p, inr a, inr c, inr s, inr z, inr k, inr b =>
      inr (ProfileFormData.mk n e p a c s z k b)
  | _, _, _, _, _, _, _, _, _ =>
      inl (Zod.at_path "name" name
           ++ Zod.at_path "email" email
           ++ Zod.at_path "phoneNumber" phoneNumber
           ++ Zod.at_path "address" address
           ++ Zod.at_path "city" city
           ++ Zod.at_path "state" state
           ++ Zod.at_path "zipCode" zipCode
           ++ Zod.at_path "country" country
           ++ Zod.at_path "bloodType" bloodType)%list
  end.

Definition accepts (input : FormValues) : bool :=
  match profileSchema input with
  | inr _ => true
  | inl _ => false
  end.

(** [{ ...(user.location || { latitude: 0, longitude: 0 }), address, city,
    state, zipCode, country }] *)
Definition location (user : User.t) (data : ProfileFormData.t) : Js.object :=
  Js.spread
    (Js.spread []
       (match User.location user with
        | Some l => Location.to_object l
        | None =>
            [ ("latitude", Js.num (Js.of_Z 0));
              ("longitude", Js.num (Js.of_Z 0)) ]
        end))
    [ ("address", Js.of_option (ProfileFormData.address data));
      ("city", Js.of_option (ProfileFormData.city data));
      ("state", Js.of_option (ProfileFormData.state data));
      ("zipCode", Js.of_option (ProfileFormData.zipCode data));
      ("country", Js.of_option (ProfileFormData.country data)) ].

Definition payload (user : User.t) (data : ProfileFormData.t) : Js.value :=
  Js.obj
    [ ("name", Js.str (ProfileFormData.name data));
      ("email", Js.str (ProfileFormData.email data));
      ("phoneNumber", Js.of_option (ProfileFormData.phoneNumber data));
      ("location", Js.obj (location user data));
      ("bloodType", Js.of_option (ProfileFormData.bloodType data)) ].

Definition onSubmit (user : option User.t) (updated : Outcome User.t)
  (data : ProfileFormData.t) : M (S := State) unit :=
  match user with
  | None => ret tt
  | Some u =>
      finally
        (try_catch
           (modify (setIsUpdating true) ;;
            emit (Gateway (updateUser (User.id u) (payload u data))) ;;
            _ <- await updated ;;
            emit (ShowToast
                    (Toast.mk "Profile updated"
                       "Your profile information has been updated successfully."
                       false)))
           (fun _ =>
              emit (ShowToast
                      (Toast.mk "Update failed"
                         "There was a problem updating your profile."
                         true))))
        (modify (setIsUpdating false))
  end.

Definition handleSubmit (user : option User.t) (updated : Outcome User.t)
  : M (S := State) unit :=
  fun s =>
    match profileSchema (values s) with
    | inr data => (modify (setErrors []) ;; onSubmit user updated data) s
    | inl issues => modify (setErrors issues) s
    end.

End WithLibrary.
End Profile.

(** ** Specification vocabulary *)

(** [Selects P l l']: [l'] is exactly the elements of [l] that satisfy
    [P], each as often and in the order it occurs in [l]. *)
Inductive Selects {A : Type} (P : A -> Prop) : list A -> list A -> Prop :=
| Selects_nil : Selects P [] []
| Selects_keep (a : A) (l l' : list A) :
    P a -> Selects P l l' -> Selects P (a :: l) (a :: l')
| Selects_drop (a : A) (l l' : list A) :
    ~ P a -> Selects P l l' -> Selects P (a :: l) l'.

(** A number within the inclusive bounds [lo] and [hi]. *)
Definition within (lo hi : Z) (n : Js.number) : Prop :=
  match n with
  | Js.Finite q => (inject_Z lo <= q /\ q <= inject_Z hi)%Q
  | _ => False
  end.

Definition is_rejected {A : Type} (o : Outcome A) : bool :=
  match o with
  | Rejected _ => true
  | Resolved _ => false
  end.

(** One of the fetches that [Home.fetchData] issues for [user] rejects. *)
Definition fetch_rejects (user : User.t) (f : Home.Fetches) : bool :=
  is_rejected (Home.requestsData f)
  || is_rejected (Home.appointmentsData f)
  || (Js.truthy (User.id user) && is_rejected (Home.notificationsData f)).

Definition with_expireAt (e : option string) (input : NewRequest.FormValues)
  : NewRequest.FormValues :=
  NewRequest.mkValues (NewRequest.bloodType input) (NewRequest.quantity input)
    (NewRequest.urgency input) (NewRequest.notes input) e.

(** ** Sample data *)

Module Sample.

Definition BloodType_values : list string :=
  [ "A+"; "A-"; "B+"; "B-"; "AB+"; "AB-"; "O+"; "O-" ].

Definition email_format (s : string) : bool :=
  match index 0 "@" s with
  | Some (S _) => true
  | _ => false
  end.

Definition clinic : Location.t :=
  Location.mk (Js.Finite (1285 # 100)) (Js.Finite (7759 # 100))
    "12 Lake Road" "Bengaluru" "KA" "560001" "India".

Definition donor : User.t :=
  User.mk "1" "Asha" "asha@example.org" DONOR None (Some "O+") (Some clinic).

Definition requester : User.t :=
  User.mk "2" "Ravi" "ravi@example.org" REQUESTER None None None.

Definition admin : User.t :=
  User.mk "9" "Admin" "admin@example.org" ADMIN None None None.

Definition request_a : BloodRequest.t :=
  BloodRequest.mk "a" "3" "Meera" "O+" (Js.of_Z 2) "critical" "pending" clinic.

Definition request_b : BloodRequest.t :=
  BloodRequest.mk "b" "2" "Ravi" "A-" (Js.of_Z 1) "low" "pending" clinic.

Definition requests : list BloodRequest.t := [request_a; request_b].

Definition appointment_x : Appointment.t := Appointment.mk "x" "1" (Some 2000%Z).

Definition appointment_y : Appointment.t := Appointment.mk "y" "7" (Some 1000%Z).

Definition appointments : list Appointment.t := [appointment_x; appointment_y].

Definition notifications : list Notification.t :=
  [Notification.mk "n1" false; Notification.mk "n2" true].

Definition fetches_ok : Home.Fetches :=
  Home.mkFetches (Resolved requests) (Resolved appointments) false
    (Resolved notifications).

Definition fetches_failing : Home.Fetches :=
  Home.mkFetches (Resolved requests) (Rejected "503") false
    (Resolved notifications).

Definition request_form (q : Js.number) : NewRequest.State :=
  NewRequest.mkState false
    (NewRequest.mkValues (Some "O+") q (Some "high") (Some "") None) [].

Definition profile_form (name : string) : Profile.State :=
  Profile.mkState false
    (Profile.mkValues name "asha@example.org" (Some "") (Some "4 Hill Street")
       (Some "Mysuru") (Some "KA") (Some "570001") (Some "India") (Some "O+"))
    [].

End Sample.

(** ** What the screens show *)

(** A button and the path its [onClick] navigates to. *)
Module Button.
Record t : Type := mk {
  label : string;
  to : string
}.
End Button.

(** The parts of the dashboard below the stat cards. *)
Module HomeView.

Inductive Icon : Type := AlertTriangle | Clock.

(** The colour classes of a request row. *)
Definition rowTone (request : BloodRequest.t) : string :=
  if String.eqb (BloodRequest.urgency request) "critical" then
    "bg-destructive/20 text-destructive"
  else if String.eqb (BloodRequest.urgency request) "high" then
    "bg-orange-200 text-orange-700"
  else if String.eqb (BloodRequest.urgency request) "medium" then
    "bg-yellow-200 text-yellow-700"
  else "bg-green-200 text-green-700".

Definition rowIcon (request : BloodRequest.t) : Icon :=
  if String.eqb (BloodRequest.urgency request) "critical" then AlertTriangle
  else Clock.

Definition badgeVariant (request : BloodRequest.t) : string :=
  if String.eqb (BloodRequest.urgency request) "critical" then "destructive"
  else if String.eqb (BloodRequest.urgency request) "high" then "outline"
  else "secondary".

(** The body of the requests card: the first five rows, or the notice. *)
Inductive RequestsBody : Type :=
| RequestRows (rows : list BloodRequest.t)
| NoRequests.

Definition requestsBody (filteredRequests : list BloodRequest.t)
  : RequestsBody :=
  if (0 <? List.length filteredRequests)%nat then
    RequestRows (firstn 5 filteredRequests)
  else NoRequests.

Inductive AppointmentsBody : Type :=
| AppointmentRows (rows : list Appointment.t)
| NoUpcomingAppointments.

Inductive SideBlock : Type :=
| Achievements
| UpcomingAppointments (body : AppointmentsBody)
| UserActivity.

(** The side card: one conditional block per role. *)
Definition sideContent (user : User.t)
  (upcomingAppointments : list Appointment.t) : list SideBlock :=
  ((if UserRole_eqb (User.role user) DONOR then [Achievements] else [])
   ++ (if UserRole_eqb (User.role user) REQUESTER then
         [UpcomingAppointments
            (if (0 <? List.length upcomingAppointments)%nat then
               AppointmentRows (firstn 3 upcomingAppointments)
             else NoUpcomingAppointments)]
       else [])
   ++ (if UserRole_eqb (User.role user) ADMIN then [UserActivity] else []))%list.

Definition headerButtons (user : User.t) : list Button.t :=
  if UserRole_eqb (User.role user) REQUESTER then
    [Button.mk "New Blood Request" "/requests/new"]
  else [].

Definition requestsFooter : list Button.t :=
  [Button.mk "View All Requests" "/requests"].

Definition sideFooter (user : User.t) : list Button.t :=
  ((if UserRole_eqb (User.role user) DONOR then
      [Button.mk "View All Achievements" "/achievements"]
    else [])
   ++ (if UserRole_eqb (User.role user) REQUESTER then
         [Button.mk "View All Appointments" "/appointments"]
       else [])
   ++ (if UserRole_eqb (User.role user) ADMIN then
         [Button.mk "Manage Users" "/users"]
       else []))%list.

Definition actionButtons (user : User.t) : list Button.t :=
  ((if UserRole_eqb (User.role user) DONOR then
      [ Button.mk "Find Donation Requests" "/requests";
        Button.mk "View Donation History" "/donation-history" ]
    else [])
   ++ (if UserRole_eqb (User.role user) REQUESTER then
         [ Button.mk "Create New Request" "/requests/new";
           Button.mk "Manage Existing Requests" "/requests" ]
       else [])
   ++ (if UserRole_eqb (User.role user) ADMIN then
         [ Button.mk "Manage Users" "/users";
           Button.mk "Manage Requests" "/requests";
           Button.mk "Donation Centers" "/donation-centers" ]
       else []))%list.

(** Every button of the dashboard, top to bottom. *)
Definition buttons (user : User.t) : list Button.t :=
  (headerButtons user ++ requestsFooter ++ sideFooter user
   ++ actionButtons user)%list.

End HomeView.

(** The parts of the request-creation screen around the form. *)
Module NewRequestView.

Record SubmitButton : Type := mkSubmitButton {
  disabled : bool;
  label : string
}.

Definition submitButton (s : NewRequest.State) : SubmitButton :=
  mkSubmitButton (NewRequest.isSubmitting s)
    (if NewRequest.isSubmitting s then "Creating..." else "Create Request").

(** The [Slider] of the quantity field. *)
Record Slider : Type := mkSlider {
  min : Z;
  max : Z;
  step : Z
}.

Definition quantitySlider : Slider := mkSlider 1 10 1.

(** The "Location Information" card. *)
Inductive LocationCard : Type :=
| RequestLocation (address city state zipCode country : string)
| LocationNotSet (link : Button.t).

Definition locationCard (user : option User.t) : LocationCard :=
  match option_map User.location user with
  | Some (Some location) =>
      RequestLocation (Location.address location) (Location.city location)
        (Location.state location) (Location.zipCode location)
        (Location.country location)
  | _ => LocationNotSet (Button.mk "Update Profile" "/profile")
  end.

Definition with_quantity (q : Js.number) (input : NewRequest.FormValues)
  : NewRequest.FormValues :=
  NewRequest.mkValues (NewRequest.bloodType input) q
    (NewRequest.urgency input) (NewRequest.notes input)
    (NewRequest.expireAt input).

End NewRequestView.

(** The parts of the profile screen around the form. *)
Module ProfileView.

(** [name.split(" ")] *)
Fixpoint split_space (s : string) : list string :=
  match s with
  | EmptyString => [""]
  | String c s' =>
      if Ascii.eqb c " " then "" :: split_space s'
      else
        match split_space s' with
        | w :: ws => String c w :: ws
        | [] => [String c ""]
        end
  end.

(** [n[0]]: the first character, [undefined] for the empty string. *)
Definition first (n : string) : option string :=
  match n with
  | EmptyString => None
  | String c _ => Some (String c "")
  end.

(** [parts.join("")]: an [undefined] element counts as the empty string. *)
Fixpoint join (parts : list (option string)) : string :=
  match parts with
  | [] => ""
  | Some p :: parts' => p ++ join parts'
  | None :: parts' => join parts'
  end.

Section WithBuiltins.
(** [String.prototype.toUpperCase] *)
Variable toUpperCase : string -> string.

Definition getInitials (name : string) : string :=
  substring 0 2 (toUpperCase (join (map first (split_space name)))).

End WithBuiltins.

(** The characters that open a word: [fresh] says that no word is under
    way. *)
Fixpoint word_starts (fresh : bool) (s : string) : string :=
  match s with
  | EmptyString => ""
  | String c s' =>
      if Ascii.eqb c " " then word_starts true s'
      else if fresh then String c (word_starts false s')
      else word_starts false s'
  end.

Definition roleDescription (user : User.t) : string :=
  if UserRole_eqb (User.role user) DONOR then "Blood Donor"
  else if UserRole_eqb (User.role user) REQUESTER then "Blood Requester"
  else "Administrator".

Definition untouched (user : User.t) : Profile.State :=
  Profile.mkState false (Profile.defaultValues (Some user)) [].

End ProfileView.

(** * Properties *)

(** ** Lists and filters *)

Lemma Selects_filter {A : Type} (P : A -> Prop) (p : A -> bool) :
  (forall a, p a = true <-> P a) ->
  forall l, Selects P l (List.filter p l).
Proof.
  intros Hp l. induction l as [|a l IH]; simpl.
  - constructor.
  - destruct (p a) eqn:E.
    + apply Selects_keep; [apply Hp; exact E | exact IH].
    + apply Selects_drop; [|exact IH].
      intro H. apply Hp in H. congruence.
Qed.

Lemma Selects_In {A : Type} (P : A -> Prop) (l l' : list A) :
  Selects P l l' -> forall a, In a l' <-> In a l /\ P a.
Proof.
  induction 1 as [|b l l' Hb Hs IH|b l l' Hb Hs IH]; intros a; simpl.
  - tauto.
  - rewrite IH. split.
    + intros [->|[Hin Ha]]; auto.
    + intros [[->|Hin] Ha]; auto.
  - rewrite IH. split.
    + intros [Hin Ha]; auto.
    + intros [[->|Hin] Ha]; [contradiction|auto].
Qed.

Lemma Selects_functional {A : Type} (P : A -> Prop) (l l1 l2 : list A) :
  Selects P l l1 -> Selects P l l2 -> l1 = l2.
Proof.
  intros H1. revert l2.
  induction H1 as [|a l l1 Ha H1 IH|a l l1 Ha H1 IH]; intros l2 H2;
    inversion H2; subst; try contradiction; auto.
  f_equal. auto.
Qed.

Lemma filter_from_index {A : Type} (f : nat -> A -> bool) (p : A -> bool) :
  (forall i a, f i a = p a) ->
  forall l i, Js.filter_from f i l = List.filter p l.
Proof.
  intros Hf l. induction l as [|a l IH]; intros i; simpl.
  - reflexivity.
  - rewrite Hf, !IH. reflexivity.
Qed.

(** Under a running clock, an element is kept when the callback's test
    holds at the instant of its own call. *)
Lemma filter_from_nth {A : Type} (f : nat -> A -> bool) (l : list A) :
  forall i a,
    In a (Js.filter_from f i l) <->
    exists k, nth_error l k = Some a /\ f (i + k)%nat a = true.
Proof.
  induction l as [|b l IH]; intros i a; simpl.
  - split; [tauto|]. intros [[|k] [H _]]; discriminate.
  - assert (Hshift : In a (Js.filter_from f (S i) l) <->
                     exists k, nth_error (b :: l) (S k) = Some a
                               /\ f (i + S k)%nat a = true).
    { rewrite IH. split; intros [k [H1 H2]]; exists k; split; auto.
      - rewrite Nat.add_succ_r. exact H2.
      - rewrite Nat.add_succ_r in H2. exact H2. }
    destruct (f i b) eqn:E; simpl.
    + split.
      * intros [->|Hin].
        -- exists 0%nat. rewrite Nat.add_0_r. auto.
        -- apply Hshift in Hin. destruct Hin as [k Hk]. exists (S k). exact Hk.
      * intros [[|k] [H1 H2]].
        -- left. simpl in H1. congruence.
        -- right. apply Hshift. exists k. auto.
    + rewrite Hshift. split.
      * intros [k Hk]. exists (S k). exact Hk.
      * intros [[|k] [H1 H2]].
        -- simpl in H1. injection H1 as ->. rewrite Nat.add_0_r in H2. congruence.
        -- exists k. auto.
Qed.


(** ** The dashboard *)

Lemma string_eqb_true (a b : string) : String.eqb a b = true <-> a = b.
Proof. apply String.eqb_eq. Qed.

(** C1. Role-based view derivation: a donor gets every fetched request and
    exactly the fetched appointments whose [donorId] is the user's id; a
    requester gets exactly the fetched requests whose [requesterId] is the
    user's id and every fetched appointment; an administrator gets both
    collections unfiltered. *)
Theorem role_based_view (user : User.t) (requests : list BloodRequest.t)
  (appointments : list Appointment.t) :
  (User.role user = DONOR ->
   Home.filteredRequests user requests = requests
   /\ Selects (fun a => Appointment.donorId a = User.id user)
        appointments (Home.filteredAppointments user appointments))
  /\ (User.role user = REQUESTER ->
      Selects (fun r => BloodRequest.requesterId r = User.id user)
        requests (Home.filteredRequests user requests)
      /\ Home.filteredAppointments user appointments = appointments)
  /\ (User.role user = ADMIN ->
      Home.filteredRequests user requests = requests
      /\ Home.filteredAppointments user appointments = appointments).
Proof.
  unfold Home.filteredRequests, Home.filteredAppointments.
  split; [|split]; intros Hrole; rewrite Hrole; simpl; split;
    try reflexivity; apply Selects_filter; intros x; apply string_eqb_true.
Qed.

Lemma role_based_view_witness :
  (Home.filteredRequests Sample.donor Sample.requests = Sample.requests
   /\ Selects (fun a => Appointment.donorId a = "1")
        Sample.appointments
        (Home.filteredAppointments Sample.donor Sample.appointments))
  /\ (Selects (fun r => BloodRequest.requesterId r = "2")
        Sample.requests
        (Home.filteredRequests Sample.requester Sample.requests)
      /\ Home.filteredAppointments Sample.requester Sample.appointments
         = Sample.appointments)
  /\ (Home.filteredRequests Sample.admin Sample.requests = Sample.requests
      /\ Home.filteredAppointments Sample.admin Sample.appointments
         = Sample.appointments).
Proof.
  split; [|split].
  - exact (proj1 (role_based_view Sample.donor Sample.requests
                    Sample.appointments) eq_refl).
  - exact (proj1 (proj2 (role_based_view Sample.requester Sample.requests
                           Sample.appointments)) eq_refl).
  - exact (proj2 (proj2 (role_based_view Sample.admin Sample.requests
                           Sample.appointments)) eq_refl).
Defined.

(** The derived collections hold the selected elements and nothing else. *)
Lemma own_appointments_only (user : User.t) (appointments : list Appointment.t)
  (a : Appointment.t) :
  User.role user = DONOR ->
  (In a (Home.filteredAppointments user appointments) <->
   In a appointments /\ Appointment.donorId a = User.id user).
Proof.
  intros Hrole. unfold Home.filteredAppointments. rewrite Hrole. simpl.
  rewrite filter_In, string_eqb_true. reflexivity.
Qed.

Lemma own_requests_only (user : User.t) (requests : list BloodRequest.t)
  (r : BloodRequest.t) :
  User.role user = REQUESTER ->
  (In r (Home.filteredRequests user requests) <->
   In r requests /\ BloodRequest.requesterId r = User.id user).
Proof.
  intros Hrole. unfold Home.filteredRequests. rewrite Hrole. simpl.
  rewrite filter_In, string_eqb_true. reflexivity.
Qed.

Example donor_sees_own_appointment :
  Home.filteredAppointments Sample.donor Sample.appointments
  = [Sample.appointment_x]
  /\ Home.filteredRequests Sample.requester Sample.requests
     = [Sample.request_b].
Proof. split; reflexivity. Qed.

(** C5. The urgent-request derivation keeps a request exactly when its
    urgency is "high" or "critical"; a request whose urgency is "low" or
    "medium" is left out. *)
Theorem urgent_iff_high_or_critical (filteredRequests : list BloodRequest.t) :
  (forall r,
     In r (Home.urgentRequests filteredRequests) <->
     In r filteredRequests
     /\ (BloodRequest.urgency r = "high" \/ BloodRequest.urgency r = "critical"))
  /\ (forall r,
        BloodRequest.urgency r = "low" \/ BloodRequest.urgency r = "medium" ->
        ~ In r (Home.urgentRequests filteredRequests))
  /\ Selects
       (fun r => BloodRequest.urgency r = "high"
                 \/ BloodRequest.urgency r = "critical")
       filteredRequests (Home.urgentRequests filteredRequests).
Proof.
  assert (Hp : forall r : BloodRequest.t,
             String.eqb (BloodRequest.urgency r) "high"
             || String.eqb (BloodRequest.urgency r) "critical" = true <->
             BloodRequest.urgency r = "high"
             \/ BloodRequest.urgency r = "critical").
  { intros r. rewrite orb_true_iff, !string_eqb_true. reflexivity. }
  unfold Home.urgentRequests. split; [|split].
  - intros r. rewrite filter_In, Hp. reflexivity.
  - intros r Hlow Hin. apply filter_In in Hin. destruct Hin as [_ Hu].
    apply Hp in Hu. destruct Hlow as [E|E], Hu as [E'|E'];
      rewrite E in E'; discriminate.
  - apply Selects_filter. exact Hp.
Qed.

(** The dashboard of the donor "1" shows both sample requests, one of
    them urgent. *)
Example donor_dashboard_counts :
  Home.filteredRequests Sample.donor Sample.requests = Sample.requests
  /\ List.length
       (Home.urgentRequests
          (Home.filteredRequests Sample.donor Sample.requests)) = 1%nat.
Proof. split; reflexivity. Qed.

Lemma upcoming_at_instant (t : Z) (filteredAppointments : list Appointment.t) :
  Home.upcomingAppointments (fun _ => t) filteredAppointments
  = List.filter (fun a => Js.Date_gt (Appointment.date a) t)
      filteredAppointments.
Proof.
  unfold Home.upcomingAppointments, Js.filter.
  apply filter_from_index. reflexivity.
Qed.

Lemma Date_gt_iff (d : Js.Date) (t : Z) :
  Js.Date_gt d t = true <-> exists x, d = Some x /\ (t < x)%Z.
Proof.
  destruct d as [x|]; simpl.
  - rewrite Z.ltb_lt. split.
    + intros H. exists x. auto.
    + intros [y [E H]]. injection E as ->. exact H.
  - split; [discriminate|]. intros [y [E _]]. discriminate.
Qed.

(** C6. Evaluated at the instant [t], the upcoming-appointment derivation
    keeps an appointment exactly when its scheduled date is strictly after
    [t]; an appointment scheduled at [t] itself is left out. *)
Theorem upcoming_iff_strictly_after (t : Z)
  (filteredAppointments : list Appointment.t) :
  (forall a,
     In a (Home.upcomingAppointments (fun _ => t) filteredAppointments) <->
     In a filteredAppointments
     /\ exists d, Appointment.date a = Some d /\ (t < d)%Z)
  /\ (forall a,
        Appointment.date a = Some t ->
        ~ In a (Home.upcomingAppointments (fun _ => t) filteredAppointments)).
Proof.
  rewrite upcoming_at_instant. split.
  - intros a. rewrite filter_In, Date_gt_iff. reflexivity.
  - intros a Hd Hin. apply filter_In in Hin. destruct Hin as [_ Hgt].
    apply Date_gt_iff in Hgt. destruct Hgt as [d [E Hlt]].
    rewrite Hd in E. injection E as <-. lia.
Qed.

(** The same under a clock that moves while the collection is walked: each
    appointment is compared with the instant of its own test. *)
Lemma upcoming_running_clock (now : nat -> Z)
  (filteredAppointments : list Appointment.t) (a : Appointment.t) :
  In a (Home.upcomingAppointments now filteredAppointments) <->
  exists k d, nth_error filteredAppointments k = Some a
              /\ Appointment.date a = Some d /\ (now k < d)%Z.
Proof.
  unfold Home.upcomingAppointments, Js.filter.
  rewrite filter_from_nth. simpl. split.
  - intros [k [Hk Hgt]]. apply Date_gt_iff in Hgt.
    destruct Hgt as [d [E Hlt]]. exists k, d. auto.
  - intros [k [d [Hk [E Hlt]]]]. exists k. split; [exact Hk|].
    apply Date_gt_iff. exists d. auto.
Qed.

Example upcoming_sample :
  Home.upcomingAppointments (fun _ => 1000%Z) Sample.appointments
  = [Sample.appointment_x].
Proof. reflexivity. Qed.

Ltac run_handler :=
  cbv [Home.fetchData NewRequest.handleSubmit NewRequest.onSubmit
       Profile.handleSubmit Profile.onSubmit
       Handler.finally Handler.try_catch Handler.bind Handler.ret
       Handler.modify Handler.emit Handler.await Handler.when Handler.all2
       Handler.state_of Handler.effects_of Handler.completion_of
       Home.requestsData Home.appointmentsData Home.appointments_first
       Home.notificationsData].

(** A run of the effect from the mount state in which a fetch rejects. *)
Lemma fetchData_rejected (user : User.t) (f : Home.Fetches) :
  fetch_rejects user f = true ->
  exists calls error,
    Home.fetchData (Some user) f Home.initial
    = (Handler.Normal tt, Home.mkState [] [] [] false,
       (map Gateway calls
        ++ [ConsoleError "Error fetching dashboard data:" error])%list).
Proof.
  unfold fetch_rejects.
  destruct f as [[r|e1] [a|e2] b [n|e3]]; simpl is_rejected;
    destruct (Js.truthy (User.id user)) eqn:T; simpl; try discriminate;
    intros _; run_handler; simpl; try rewrite T; simpl.
  all: try (exists [getBloodRequests; getAppointments;
                    getNotifications (User.id user)], e3; reflexivity).
  all: try (exists [getBloodRequests; getAppointments], e2; reflexivity).
  all: try (exists [getBloodRequests; getAppointments], e1; reflexivity).
  all: destruct b;
    [ exists [getBloodRequests; getAppointments], e2; reflexivity
    | exists [getBloodRequests; getAppointments], e1; reflexivity ].
Qed.

Lemma no_toast_in_fetch_log (calls : list GatewayCall) (message error : string) :
  List.filter is_toast (map Gateway calls ++ [ConsoleError message error]) = [].
Proof.
  induction calls as [|c calls IH]; simpl; [reflexivity|exact IH].
Qed.

(** C8. When a fetch of the dashboard rejects on mount, the failure is
    logged with [console.error] and nothing else is shown: the handler
    completes, the three collections are still empty, the loading flag is
    cleared and the dashboard renders, with no request listed. *)
Theorem fetch_failure_degrades (user : User.t) (f : Home.Fetches)
  (now : nat -> Z) :
  fetch_rejects user f = true ->
  let run := Home.fetchData (Some user) f Home.initial in
  Handler.state_of run = Home.mkState [] [] [] false
  /\ Handler.completion_of run = Handler.Normal tt
  /\ (exists calls error,
        Handler.effects_of run
        = (map Gateway calls
           ++ [ConsoleError "Error fetching dashboard data:" error])%list)
  /\ List.filter is_toast (Handler.effects_of run) = []
  /\ (exists d,
        Home.render (Some user) now (Handler.state_of run) = Home.Rendered d
        /\ Home.requestList d = []).
Proof.
  intros Hrej run. subst run.
  destruct (fetchData_rejected user f Hrej) as [calls [error E]].
  rewrite E. unfold Handler.state_of, Handler.completion_of, Handler.effects_of.
  simpl fst. simpl snd.
  split; [reflexivity|]. split; [reflexivity|].
  split; [exists calls, error; reflexivity|].
  split; [apply no_toast_in_fetch_log|].
  unfold Home.render. simpl. eexists. split; [reflexivity|].
  simpl. unfold Home.filteredRequests.
  destruct (UserRole_eqb (User.role user) DONOR),
    (UserRole_eqb (User.role user) REQUESTER); reflexivity.
Qed.

Lemma fetch_failure_degrades_witness :
  fetch_rejects Sample.donor Sample.fetches_failing = true
  /\ Handler.state_of
       (Home.fetchData (Some Sample.donor) Sample.fetches_failing Home.initial)
     = Home.mkState [] [] [] false.
Proof.
  split; [reflexivity|].
  exact (proj1 (fetch_failure_degrades Sample.donor Sample.fetches_failing
                  (fun _ => 0%Z) eq_refl)).
Defined.

(** When every fetch resolves the collections are the fetched ones. *)
Lemma fetch_success (user : User.t) (requests : list BloodRequest.t)
  (appointments : list Appointment.t) (notifications : list Notification.t)
  (b : bool) :
  Js.truthy (User.id user) = true ->
  Handler.state_of
    (Home.fetchData (Some user)
       (Home.mkFetches (Resolved requests) (Resolved appointments) b
          (Resolved notifications))
       Home.initial)
  = Home.mkState requests appointments notifications false.
Proof. intros T. run_handler. simpl. rewrite T. reflexivity. Qed.

Lemma fetchData_calls (user : User.t) (f : Home.Fetches) (s : Home.State)
  (call : GatewayCall) :
  In call (gateway_calls (Handler.effects_of (Home.fetchData (Some user) f s))) ->
  call = getBloodRequests \/ call = getAppointments
  \/ call = getNotifications (User.id user).
Proof.
  destruct f as [[r|e1] [a|e2] b [n|e3]];
    destruct (Js.truthy (User.id user)) eqn:T;
    run_handler; simpl; try rewrite T; simpl; try (destruct b; simpl);
    intuition congruence.
Qed.

(** C10. For an administrator the third stat card is "Total Users" with
    the literal "4", whatever was fetched; the fetches of the dashboard
    are those of the requests, the appointments and the notifications,
    none of a user collection. *)
Theorem admin_total_users_constant (user : User.t)
  (requests : list BloodRequest.t) (appointments : list Appointment.t)
  (notifications : list Notification.t) (now : nat -> Z) :
  User.role user = ADMIN ->
  (exists d,
     Home.render (Some user) now
       (Home.mkState requests appointments notifications false)
     = Home.Rendered d
     /\ snd (Home.statCards d)
        = Home.mkCard "Total Users" (Home.Text "4") None
            "Registered on platform")
  /\ (forall f s call,
        In call
          (gateway_calls
             (Handler.effects_of (Home.fetchData (Some user) f s))) ->
        call = getBloodRequests \/ call = getAppointments
        \/ call = getNotifications (User.id user)).
Proof.
  intros Hrole. split.
  - unfold Home.render. simpl. eexists. split; [reflexivity|].
    simpl. unfold Home.card3. rewrite Hrole. reflexivity.
  - intros f s call. apply fetchData_calls.
Qed.

Lemma admin_total_users_constant_witness :
  exists d,
    Home.render (Some Sample.admin) (fun _ => 0%Z)
      (Home.mkState Sample.requests Sample.appointments Sample.notifications
         false)
    = Home.Rendered d
    /\ snd (Home.statCards d)
       = Home.mkCard "Total Users" (Home.Text "4") None
           "Registered on platform".
Proof.
  exact (proj1 (admin_total_users_constant Sample.admin Sample.requests
                  Sample.appointments Sample.notifications (fun _ => 0%Z)
                  eq_refl)).
Defined.

(** For the other roles the card counts the unread notifications. *)
Example donor_notifications_card :
  Home.card3 Sample.donor (Home.unreadNotifications Sample.notifications)
  = Home.mkCard "Notifications" (Home.Count 1) None "Unread messages".
Proof. reflexivity. Qed.

(** ** Schemas *)

Lemma Qltb_lt (x y : Q) : Js.Qltb x y = true <-> (x < y)%Q.
Proof. unfold Js.Qltb, Qlt. apply Z.ltb_lt. Qed.

Lemma Qltb_ge (x y : Q) : Js.Qltb x y = false <-> (y <= x)%Q.
Proof. unfold Js.Qltb, Qle. apply Z.ltb_ge. Qed.

Lemma number_min_max_spec (lo hi : Z) (lo_message hi_message : string)
  (n : Js.number) :
  match
    Zod.number_min_max (Js.of_Z lo) lo_message (Js.of_Z hi) hi_message n
  with
  | inr n' => n' = n /\ within lo hi n
  | inl issues => issues <> [] /\ ~ within lo hi n
  end.
Proof.
  destruct n as [|[|]|q]; simpl.
  - split; [discriminate|tauto].
  - split; [discriminate|tauto].
  - split; [discriminate|tauto].
  - unfold Js.gt. simpl.
    destruct (Js.Qltb q (inject_Z lo)) eqn:Elo;
      destruct (Js.Qltb (inject_Z hi) q) eqn:Ehi; simpl.
    + split; [discriminate|]. apply Qltb_lt in Elo. intros [H _].
      apply (Qlt_not_le _ _ Elo H).
    + split; [discriminate|]. apply Qltb_lt in Elo. intros [H _].
      apply (Qlt_not_le _ _ Elo H).
    + split; [discriminate|]. apply Qltb_lt in Ehi. intros [_ H].
      apply (Qlt_not_le _ _ Ehi H).
    + apply Qltb_ge in Elo. apply Qltb_ge in Ehi. auto.
Qed.

Lemma nativeEnum_spec (values : list string) (required_error : option string)
  (input : option string) :
  match Zod.nativeEnum values required_error input with
  | inr s => input = Some s /\ In s values
  | inl issues =>
      (input = None /\ issues = [(Zod.invalid_type, required_error)])
      \/ (exists s, input = Some s /\ ~ In s values
                    /\ issues = [(Zod.invalid_enum_value, None)])
  end.
Proof.
  destruct input as [s|]; simpl.
  - destruct (existsb (String.eqb s) values) eqn:E.
    + split; [reflexivity|]. apply existsb_exists in E.
      destruct E as [x [Hin Hx]]. apply String.eqb_eq in Hx. subst. exact Hin.
    + right. exists s. repeat split; try reflexivity. intros Hin.
      assert (existsb (String.eqb s) values = true) as E'.
      { apply existsb_exists. exists s. split; [exact Hin|apply String.eqb_refl]. }
      congruence.
  - left. auto.
Qed.

Lemma optional_string (o : option string) :
  Zod.optional Zod.string_ o = inr o.
Proof. destruct o; reflexivity. Qed.

Lemma has_error_app (key : string) (a b : list Zod.Issue) :
  Zod.has_error key (a ++ b) = Zod.has_error key a || Zod.has_error key b.
Proof. unfold Zod.has_error. apply existsb_app. Qed.

Lemma has_error_at_path {A : Type} (key : string) (r : Zod.Parsed A) :
  Zod.has_error key (Zod.at_path key r)
  = match r with
    | inl (_ :: _) => true
    | _ => false
    end.
Proof.
  destruct r as [[|i issues]|a]; simpl; try reflexivity.
  rewrite String.eqb_refl. reflexivity.
Qed.

(** ** The request-creation form *)

Section RequestForm.
Variable BloodType_values : list string.

Local Abbreviation requestSchema := (NewRequest.requestSchema BloodType_values).
Local Abbreviation accepts := (NewRequest.accepts BloodType_values).
Local Abbreviation handleSubmit := (NewRequest.handleSubmit BloodType_values).

(** What the schema hands to the handler is the input itself. *)
Lemma requestSchema_data (input : NewRequest.FormValues)
  (data : NewRequest.RequestFormData.t) :
  requestSchema input = inr data ->
  NewRequest.bloodType input = Some (NewRequest.RequestFormData.bloodType data)
  /\ In (NewRequest.RequestFormData.bloodType data) BloodType_values
  /\ NewRequest.RequestFormData.quantity data = NewRequest.quantity input
  /\ within 1 10 (NewRequest.quantity input)
  /\ NewRequest.urgency input = Some (NewRequest.RequestFormData.urgency data)
  /\ In (NewRequest.RequestFormData.urgency data) UrgencyLevel_values
  /\ NewRequest.RequestFormData.notes data = NewRequest.notes input
  /\ NewRequest.RequestFormData.expireAt data = NewRequest.expireAt input.
Proof.
  unfold NewRequest.requestSchema. rewrite !optional_string.
  pose proof (nativeEnum_spec BloodType_values
                (Some "Please select a blood type")
                (NewRequest.bloodType input)) as Hb.
  pose proof (number_min_max_spec 1 10 "Quantity must be at least 1 unit"
                "Quantity cannot exceed 10 units"
                (NewRequest.quantity input)) as Hq.
  pose proof (nativeEnum_spec UrgencyLevel_values
                (Some "Please select an urgency level")
                (NewRequest.urgency input)) as Hu.
  destruct (Zod.nativeEnum BloodType_values _ (NewRequest.bloodType input));
    destruct (Zod.number_min_max _ _ _ _ (NewRequest.quantity input));
    destruct (Zod.nativeEnum UrgencyLevel_values _ (NewRequest.urgency input));
    try discriminate.
  intros H. injection H as <-. simpl. tauto.
Qed.

Lemma accepts_iff (input : NewRequest.FormValues) :
  accepts input = true <->
  within 1 10 (NewRequest.quantity input)
  /\ (exists b, NewRequest.bloodType input = Some b /\ In b BloodType_values)
  /\ (exists u, NewRequest.urgency input = Some u /\ In u UrgencyLevel_values).
Proof.
  unfold NewRequest.accepts. split.
  - destruct (requestSchema input) as [issues|data] eqn:E; [discriminate|].
    intros _. apply requestSchema_data in E.
    destruct E as (Hb & Hbin & _ & Hq & Hu & Huin & _).
    split; [exact Hq|]. split; eexists; eauto.
  - intros (Hq & [b [Hb Hbin]] & [u [Hu Huin]]).
    unfold NewRequest.requestSchema. rewrite !optional_string.
    pose proof (nativeEnum_spec BloodType_values
                  (Some "Please select a blood type")
                  (NewRequest.bloodType input)) as Sb.
    pose proof (number_min_max_spec 1 10 "Quantity must be at least 1 unit"
                  "Quantity cannot exceed 10 units"
                  (NewRequest.quantity input)) as Sq.
    pose proof (nativeEnum_spec UrgencyLevel_values
                  (Some "Please select an urgency level")
                  (NewRequest.urgency input)) as Su.
    destruct (Zod.nativeEnum BloodType_values _ (NewRequest.bloodType input));
      [exfalso; destruct Sb as [[E _]|[x [E [Hn _]]]]; rewrite Hb in E;
       [discriminate|injection E as <-; contradiction]|].
    destruct (Zod.number_min_max _ _ _ _ (NewRequest.quantity input));
      [exfalso; tauto|].
    destruct (Zod.nativeEnum UrgencyLevel_values _ (NewRequest.urgency input));
      [exfalso; destruct Su as [[E _]|[x [E [Hn _]]]]; rewrite Hu in E;
       [discriminate|injection E as <-; contradiction]|].
    reflexivity.
Qed.

(** The issues a rejected input is sent back with. *)
Lemma requestSchema_issues (input : NewRequest.FormValues) :
  accepts input = false ->
  exists issues,
    requestSchema input = inl issues
    /\ (~ within 1 10 (NewRequest.quantity input) ->
        Zod.has_error "quantity" issues = true)
    /\ (NewRequest.bloodType input = None ->
        In (Zod.mkIssue "bloodType" Zod.invalid_type
              (Some "Please select a blood type")) issues)
    /\ (NewRequest.urgency input = None ->
        In (Zod.mkIssue "urgency" Zod.invalid_type
              (Some "Please select an urgency level")) issues).
Proof.
  unfold NewRequest.accepts.
  destruct (requestSchema input) as [issues|data] eqn:E; [|discriminate].
  intros _. exists issues. split; [reflexivity|].
  revert E. unfold NewRequest.requestSchema.
  rewrite !optional_string.
  pose proof (number_min_max_spec 1 10 "Quantity must be at least 1 unit"
                "Quantity cannot exceed 10 units"
                (NewRequest.quantity input)) as Sq.
  set (b := Zod.nativeEnum BloodType_values _ (NewRequest.bloodType input)).
  set (q := Zod.number_min_max _ _ _ _ (NewRequest.quantity input)) in *.
  set (u := Zod.nativeEnum UrgencyLevel_values _ (NewRequest.urgency input)).
  intros E.
  assert (Hissues : issues
                    = (Zod.at_path "bloodType" b ++ Zod.at_path "quantity" q
                       ++ Zod.at_path "urgency" u)%list).
  { destruct b, q, u; simpl in E; try discriminate;
      injection E as <-; simpl; rewrite ?app_nil_r; reflexivity. }
  subst issues. split; [|split].
  - intros Hout. rewrite !has_error_app, has_error_at_path.
    destruct q as [[|i rest]|n]; [tauto| |tauto].
    rewrite orb_true_r. reflexivity.
  - intros Hnone. subst b. rewrite Hnone. simpl. auto.
  - intros Hnone. subst u. rewrite Hnone. simpl.
    apply in_or_app. right. apply in_or_app. right. simpl. auto.
Qed.

Lemma handleSubmit_invalid (user : option User.t)
  (created : Outcome BloodRequest.t) (s : NewRequest.State)
  (issues : list Zod.Issue) :
  requestSchema (NewRequest.values s) = inl issues ->
  handleSubmit user created s
  = (Handler.Normal tt, NewRequest.setErrors issues s, []).
Proof.
  intros E. unfold NewRequest.handleSubmit. rewrite E. reflexivity.
Qed.

Lemma handleSubmit_valid (user : option User.t)
  (created : Outcome BloodRequest.t) (s : NewRequest.State)
  (data : NewRequest.RequestFormData.t) :
  requestSchema (NewRequest.values s) = inr data ->
  handleSubmit user created s
  = match user, created with
    | None, _ => (Handler.Normal tt, NewRequest.setErrors [] s, [])
    | Some u, Resolved _ =>
        (Handler.Normal tt,
         NewRequest.mkState false (NewRequest.values s) [],
         [ Gateway (createBloodRequest
                      (NewRequest.payload u data));
           ShowToast
             (Toast.mk "Request created"
                "Your blood request has been successfully created." false);
           Navigate "/requests" ])
    | Some u, Rejected _ =>
        (Handler.Normal tt,
         NewRequest.mkState false (NewRequest.values s) [],
         [ Gateway (createBloodRequest
                      (NewRequest.payload u data));
           ShowToast
             (Toast.mk "Error" "There was a problem creating your request."
                true) ])
    end.
Proof.
  intros E. unfold NewRequest.handleSubmit. rewrite E.
  destruct user as [u|], created as [r|e]; reflexivity.
Qed.

(** C2. The schema takes a number within the inclusive bounds 1 and 10
    for the quantity (whole or not) and a member of the enumeration for
    the blood type and for the urgency. An input whose quantity is outside
    the bounds, or whose blood type or urgency is missing, is sent back
    with an error on that field and submitting it has no effect: no call
    reaches the Data Gateway. *)
Theorem request_validation_blocks (user : option User.t)
  (created : Outcome BloodRequest.t) (s : NewRequest.State) :
  let input := NewRequest.values s in
  let run := handleSubmit user created s in
  (accepts input = true <->
   within 1 10 (NewRequest.quantity input)
   /\ (exists b, NewRequest.bloodType input = Some b /\ In b BloodType_values)
   /\ (exists u, NewRequest.urgency input = Some u
                 /\ In u ["low"; "medium"; "high"; "critical"]))
  /\ (~ within 1 10 (NewRequest.quantity input)
      \/ NewRequest.bloodType input = None
      \/ NewRequest.urgency input = None ->
      Handler.effects_of run = []
      /\ gateway_calls (Handler.effects_of run) = []
      /\ NewRequest.values (Handler.state_of run) = input)
  /\ (~ within 1 10 (NewRequest.quantity input) ->
      Zod.has_error "quantity" (NewRequest.errors (Handler.state_of run)) = true)
  /\ (NewRequest.bloodType input = None ->
      In (Zod.mkIssue "bloodType" Zod.invalid_type
            (Some "Please select a blood type"))
        (NewRequest.errors (Handler.state_of run)))
  /\ (NewRequest.urgency input = None ->
      In (Zod.mkIssue "urgency" Zod.invalid_type
            (Some "Please select an urgency level"))
        (NewRequest.errors (Handler.state_of run))).
Proof.
  intros input run. subst input run.
  split; [apply accepts_iff|].
  assert (Hrej : ~ within 1 10 (NewRequest.quantity (NewRequest.values s))
                 \/ NewRequest.bloodType (NewRequest.values s) = None
                 \/ NewRequest.urgency (NewRequest.values s) = None ->
                 accepts (NewRequest.values s) = false).
  { intros H. destruct (accepts (NewRequest.values s)) eqn:E; [|reflexivity].
    apply accepts_iff in E. destruct E as (Hq & [b [Hb _]] & [u [Hu _]]).
    destruct H as [H|[H|H]]; [contradiction|congruence|congruence]. }
  assert (Hrun : ~ within 1 10 (NewRequest.quantity (NewRequest.values s))
                 \/ NewRequest.bloodType (NewRequest.values s) = None
                 \/ NewRequest.urgency (NewRequest.values s) = None ->
                 exists issues,
                   handleSubmit user created s
                   = (Handler.Normal tt, NewRequest.setErrors issues s, [])
                   /\ requestSchema (NewRequest.values s) = inl issues).
  { intros H. destruct (requestSchema_issues _ (Hrej H)) as [issues [E _]].
    exists issues. split; [apply handleSubmit_invalid; exact E|exact E]. }
  split; [|split; [|split]].
  - intros H. destruct (Hrun H) as [issues [E _]]. rewrite E. auto.
  - intros H. destruct (Hrun (or_introl H)) as [issues [E Es]]. rewrite E.
    destruct (requestSchema_issues _ (Hrej (or_introl H)))
      as [issues' [Es' [Hq _]]].
    rewrite Es in Es'. injection Es' as <-. apply Hq. exact H.
  - intros H. destruct (Hrun (or_intror (or_introl H))) as [issues [E Es]].
    rewrite E.
    destruct (requestSchema_issues _ (Hrej (or_intror (or_introl H))))
      as [issues' [Es' [_ [Hb _]]]].
    rewrite Es in Es'. injection Es' as <-. apply Hb. exact H.
  - intros H. destruct (Hrun (or_intror (or_intror H))) as [issues [E Es]].
    rewrite E.
    destruct (requestSchema_issues _ (Hrej (or_intror (or_intror H))))
      as [issues' [Es' [_ [_ Hu]]]].
    rewrite Es in Es'. injection Es' as <-. apply Hu. exact H.
Qed.

(** C3, as the code has it. With a signed-in user, submitting an input the
    schema accepts makes exactly one create call; its payload has the
    status "pending", the user's stored location when there is one and
    otherwise the placeholder location (latitude 0, longitude 0, "Unknown"
    address, city, state and country, zip code "00000"), and the values of
    the form. With no signed-in user the handler returns at once and no
    call is made. *)
Theorem valid_submit_creates_once (user : option User.t)
  (created : Outcome BloodRequest.t) (s : NewRequest.State) :
  accepts (NewRequest.values s) = true ->
  let run := handleSubmit user created s in
  match user with
  | Some u =>
      exists p,
        gateway_calls (Handler.effects_of run) = [createBloodRequest p]
        /\ CreatePayload.status p = "pending"
        /\ CreatePayload.location p
           = match User.location u with
             | Some stored => stored
             | None =>
                 Location.mk (Js.of_Z 0) (Js.of_Z 0) "Unknown" "Unknown"
                   "Unknown" "00000" "Unknown"
             end
        /\ CreatePayload.requesterId p = User.id u
        /\ CreatePayload.requesterName p = User.name u
        /\ Some (CreatePayload.bloodType p)
           = NewRequest.bloodType (NewRequest.values s)
        /\ CreatePayload.quantity p = NewRequest.quantity (NewRequest.values s)
        /\ Some (CreatePayload.urgency p)
           = NewRequest.urgency (NewRequest.values s)
        /\ CreatePayload.notes p = NewRequest.notes (NewRequest.values s)
  | None => Handler.effects_of run = []
  end.
Proof.
  unfold NewRequest.accepts.
  destruct (requestSchema (NewRequest.values s)) as [issues|data] eqn:E;
    [discriminate|].
  intros _. cbv zeta. rewrite (handleSubmit_valid _ _ _ _ E).
  apply requestSchema_data in E.
  destruct E as (Hb & _ & Hq & _ & Hu & _ & Hn & _).
  destruct user as [u|]; [|reflexivity].
  exists (NewRequest.payload u data).
  split; [destruct created; reflexivity|].
  unfold NewRequest.payload. simpl.
  rewrite Hb, Hq, Hu, Hn.
  split; [reflexivity|]. split; [|repeat split; reflexivity].
  destruct (User.location u); reflexivity.
Qed.

(** A resolved create is followed by the success toast and the move to
    the request list. *)
Lemma create_success_navigates (user : User.t) (created : BloodRequest.t)
  (s : NewRequest.State) (data : NewRequest.RequestFormData.t) :
  requestSchema (NewRequest.values s) = inr data ->
  List.filter is_navigate
    (Handler.effects_of (handleSubmit (Some user) (Resolved created) s))
  = [Navigate "/requests"].
Proof.
  intros E. rewrite (handleSubmit_valid _ _ _ _ E). reflexivity.
Qed.

(** C9. When the create call rejects, the handler shows the error toast
    and nothing else: it does not navigate, the values of the form are
    the ones submitted, and the submitting flag is back to [false]. *)
Theorem create_rejection_keeps_form (user : User.t) (error : string)
  (s : NewRequest.State) (data : NewRequest.RequestFormData.t) :
  requestSchema (NewRequest.values s) = inr data ->
  let run := handleSubmit (Some user) (Rejected error) s in
  Handler.effects_of run
  = [ Gateway (createBloodRequest (NewRequest.payload user data));
      ShowToast
        (Toast.mk "Error" "There was a problem creating your request." true) ]
  /\ List.filter is_navigate (Handler.effects_of run) = []
  /\ NewRequest.values (Handler.state_of run) = NewRequest.values s
  /\ NewRequest.isSubmitting (Handler.state_of run) = false
  /\ Handler.completion_of run = Handler.Normal tt.
Proof.
  intros E run. subst run. rewrite (handleSubmit_valid _ _ _ _ E).
  repeat split; reflexivity.
Qed.

(** C7. The schema does not look at the expiry date. An input whose
    quantity is within 1 and 10 and whose blood type and urgency are of
    their enumerations is accepted whatever its [expireAt] is, absent or
    any string, a date long past included, and it reaches the handler with
    that [expireAt]; changing the [expireAt] of any input never changes
    the verdict; the day after the rendering is only the [min] of the
    date input. *)
Theorem expiry_not_validated (input : NewRequest.FormValues)
  (e : option string) (tomorrowString : string) :
  (within 1 10 (NewRequest.quantity input) ->
   (exists b, NewRequest.bloodType input = Some b /\ In b BloodType_values) ->
   (exists u, NewRequest.urgency input = Some u
              /\ In u ["low"; "medium"; "high"; "critical"]) ->
   accepts (with_expireAt e input) = true
   /\ exists data,
        requestSchema (with_expireAt e input) = inr data
        /\ NewRequest.RequestFormData.expireAt data = e)
  /\ accepts (with_expireAt e input) = accepts input
  /\ (forall data,
        requestSchema (with_expireAt e input) = inr data ->
        NewRequest.RequestFormData.expireAt data = e)
  /\ NewRequest.min (NewRequest.expireAtInput tomorrowString e)
     = tomorrowString.
Proof.
  assert (Hpass : forall data,
             requestSchema (with_expireAt e input) = inr data ->
             NewRequest.RequestFormData.expireAt data = e).
  { intros data E. apply requestSchema_data in E.
    destruct E as (_ & _ & _ & _ & _ & _ & _ & He). exact He. }
  split; [|split; [|split]].
  - intros Hq Hb Hu.
    assert (Hacc : accepts (with_expireAt e input) = true).
    { apply accepts_iff. unfold with_expireAt.
      cbn [NewRequest.quantity NewRequest.bloodType NewRequest.urgency].
      split; [exact Hq|]. split; [exact Hb|exact Hu]. }
    split; [exact Hacc|].
    unfold NewRequest.accepts in Hacc.
    destruct (requestSchema (with_expireAt e input)) as [issues|data] eqn:E;
      [discriminate|].
    exists data. split; [reflexivity|]. apply Hpass. reflexivity.
  - apply eq_true_iff_eq. rewrite !accepts_iff. reflexivity.
  - exact Hpass.
  - reflexivity.
Qed.

End RequestForm.

Lemma request_validation_blocks_witness :
  NewRequest.accepts Sample.BloodType_values
    (NewRequest.values (Sample.request_form (Js.of_Z 11))) = false
  /\ gateway_calls
       (Handler.effects_of
          (NewRequest.handleSubmit Sample.BloodType_values
             (Some Sample.requester) (Resolved Sample.request_b)
             (Sample.request_form (Js.of_Z 11)))) = []
  /\ Zod.has_error "quantity"
       (NewRequest.errors
          (Handler.state_of
             (NewRequest.handleSubmit Sample.BloodType_values
                (Some Sample.requester) (Resolved Sample.request_b)
                (Sample.request_form (Js.of_Z 11))))) = true.
Proof.
  assert (Hout : ~ within 1 10 (Js.of_Z 11)).
  { simpl. unfold Qle. simpl. lia. }
  pose proof (request_validation_blocks Sample.BloodType_values
                (Some Sample.requester) (Resolved Sample.request_b)
                (Sample.request_form (Js.of_Z 11))) as H.
  simpl in H. destruct H as (_ & Hcalls & Hq & _).
  split; [reflexivity|]. split.
  - exact (proj1 (proj2 (Hcalls (or_introl Hout)))).
  - exact (Hq Hout).
Defined.

(** The schema takes a quantity that is no integer. *)
Lemma fractional_quantity_accepted :
  Js.isInteger (Js.Finite (5 # 2)) = false
  /\ NewRequest.accepts Sample.BloodType_values
       (NewRequest.values (Sample.request_form (Js.Finite (5 # 2)))) = true
  /\ gateway_calls
       (Handler.effects_of
          (NewRequest.handleSubmit Sample.BloodType_values
             (Some Sample.requester) (Resolved Sample.request_b)
             (Sample.request_form (Js.Finite (5 # 2)))))
     = [createBloodRequest
          (CreatePayload.mk "2" "Ravi" "O+" (Js.Finite (5 # 2)) "high"
             NewRequest.placeholderLocation "pending" (Some "") None)].
Proof. repeat split; reflexivity. Qed.

Lemma valid_submit_creates_once_witness :
  exists p,
    gateway_calls
      (Handler.effects_of
         (NewRequest.handleSubmit Sample.BloodType_values
            (Some Sample.requester) (Resolved Sample.request_b)
            (Sample.request_form (Js.of_Z 3))))
    = [createBloodRequest p]
    /\ CreatePayload.status p = "pending"
    /\ CreatePayload.location p
       = Location.mk (Js.of_Z 0) (Js.of_Z 0) "Unknown" "Unknown" "Unknown"
           "00000" "Unknown".
Proof.
  destruct (valid_submit_creates_once Sample.BloodType_values
              (Some Sample.requester) (Resolved Sample.request_b)
              (Sample.request_form (Js.of_Z 3))
              eq_refl) as [p (H1 & H2 & H3 & _)].
  exists p. split; [exact H1|]. split; [exact H2|exact H3].
Defined.

(** With nobody signed in, an accepted input makes no create call. *)
Lemma valid_submit_without_user :
  NewRequest.accepts Sample.BloodType_values
    (NewRequest.values (Sample.request_form (Js.of_Z 3))) = true
  /\ gateway_calls
       (Handler.effects_of
          (NewRequest.handleSubmit Sample.BloodType_values None
             (Resolved Sample.request_b) (Sample.request_form (Js.of_Z 3))))
     = [].
Proof. split; reflexivity. Qed.

Lemma create_rejection_keeps_form_witness :
  let run :=
    NewRequest.handleSubmit Sample.BloodType_values (Some Sample.requester)
      (Rejected "500") (Sample.request_form (Js.of_Z 3)) in
  List.filter is_navigate (Handler.effects_of run) = []
  /\ NewRequest.values (Handler.state_of run)
     = NewRequest.values (Sample.request_form (Js.of_Z 3))
  /\ NewRequest.isSubmitting (Handler.state_of run) = false.
Proof.
  destruct (create_rejection_keeps_form Sample.BloodType_values
              Sample.requester "500" (Sample.request_form (Js.of_Z 3))
              (NewRequest.RequestFormData.mk "O+" (Js.of_Z 3) "high" (Some "")
                 None)
              eq_refl) as (_ & H1 & H2 & H3 & _).
  split; [exact H1|]. split; [exact H2|exact H3].
Defined.

(** The form as first shown has no blood type yet and is sent back for
    it. *)
Example default_form_needs_blood_type :
  NewRequest.requestSchema Sample.BloodType_values NewRequest.defaultValues
  = inl [Zod.mkIssue "bloodType" Zod.invalid_type
           (Some "Please select a blood type")]
  /\ Handler.effects_of
       (NewRequest.handleSubmit Sample.BloodType_values (Some Sample.requester)
          (Resolved Sample.request_b) NewRequest.initial) = [].
Proof. split; reflexivity. Qed.

(** An expiry date long past passes the schema. *)
Lemma expiry_not_validated_witness :
  NewRequest.accepts Sample.BloodType_values
    (with_expireAt (Some "2000-01-01")
       (NewRequest.values (Sample.request_form (Js.of_Z 3)))) = true
  /\ exists data,
       NewRequest.requestSchema Sample.BloodType_values
         (with_expireAt (Some "2000-01-01")
            (NewRequest.values (Sample.request_form (Js.of_Z 3))))
       = inr data
       /\ NewRequest.RequestFormData.expireAt data = Some "2000-01-01".
Proof.
  apply (proj1 (expiry_not_validated Sample.BloodType_values
                  (NewRequest.values (Sample.request_form (Js.of_Z 3)))
                  (Some "2000-01-01") "2026-11-03")).
  - simpl. unfold Qle. simpl. lia.
  - exists "O+". split; [reflexivity|]. simpl. tauto.
  - exists "high". split; [reflexivity|]. simpl. tauto.
Defined.

(** An expiry date long past is accepted and sent on. *)
Example past_expiry_accepted :
  let s :=
    NewRequest.mkState false
      (NewRequest.mkValues (Some "O+") (Js.of_Z 3) (Some "high") (Some "")
         (Some "2000-01-01")) [] in
  NewRequest.accepts Sample.BloodType_values (NewRequest.values s) = true
  /\ gateway_calls
       (Handler.effects_of
          (NewRequest.handleSubmit Sample.BloodType_values
             (Some Sample.requester) (Resolved Sample.request_b) s))
     = [createBloodRequest
          (CreatePayload.mk "2" "Ravi" "O+" (Js.of_Z 3) "high"
             NewRequest.placeholderLocation "pending" (Some "")
             (Some "2000-01-01"))].
Proof. split; reflexivity. Qed.

(** ** The profile form *)

Section ProfileForm.
Variable BloodType_values : list string.
Variable email_format : string -> bool.

Local Abbreviation profileSchema :=
  (Profile.profileSchema BloodType_values email_format).
Local Abbreviation accepts := (Profile.accepts BloodType_values email_format).
Local Abbreviation handleSubmit :=
  (Profile.handleSubmit BloodType_values email_format).

Lemma profileSchema_data (input : Profile.FormValues)
  (data : Profile.ProfileFormData.t) :
  profileSchema input = inr data ->
  data
  = Profile.ProfileFormData.mk (Profile.name input) (Profile.email input)
      (Profile.phoneNumber input) (Profile.address input) (Profile.city input)
      (Profile.state input) (Profile.zipCode input) (Profile.country input)
      (Profile.bloodType input)
  /\ (2 <= String.length (Profile.name input))%nat
  /\ email_format (Profile.email input) = true.
Proof.
  unfold Profile.profileSchema. rewrite !optional_string.
  unfold Zod.string_min, Zod.string_email, Zod.optional.
  pose proof (fun b => nativeEnum_spec BloodType_values None (Some b)) as Sb.
  destruct (String.length (Profile.name input) <? 2)%nat eqn:En;
    destruct (email_format (Profile.email input)) eqn:Ee;
    destruct (Profile.bloodType input) as [b|] eqn:Eb;
    try (specialize (Sb b);
         destruct (Zod.nativeEnum BloodType_values None (Some b)));
    try discriminate;
    intros H; injection H as <-; apply Nat.ltb_ge in En.
  - destruct Sb as [Sb _]. injection Sb as <-. auto.
  - auto.
Qed.

Lemma profileSchema_issues (input : Profile.FormValues) :
  (String.length (Profile.name input) < 2)%nat
  \/ email_format (Profile.email input) = false ->
  exists issues,
    profileSchema input = inl issues
    /\ ((String.length (Profile.name input) < 2)%nat ->
        In (Zod.mkIssue "name" Zod.too_small
              (Some "Name must be at least 2 characters")) issues)
    /\ (email_format (Profile.email input) = false ->
        In (Zod.mkIssue "email" Zod.invalid_string
              (Some "Please enter a valid email")) issues).
Proof.
  intros H. unfold Profile.profileSchema. rewrite !optional_string.
  unfold Zod.string_min, Zod.string_email.
  destruct (String.length (Profile.name input) <? 2)%nat eqn:En;
    destruct (email_format (Profile.email input)) eqn:Ee.
  - eexists. split; [reflexivity|]. simpl. split; auto. discriminate.
  - eexists. split; [reflexivity|]. simpl. split; auto.
  - apply Nat.ltb_ge in En.
    destruct H as [H|H]; [exfalso; apply (Nat.lt_irrefl 2); eapply Nat.le_lt_trans; eauto|discriminate].
  - apply Nat.ltb_ge in En.
    destruct (Zod.optional _ (Profile.bloodType input));
      (eexists; split; [reflexivity|]; simpl; split; [|auto]);
      intros Hlt; exfalso; apply (Nat.lt_irrefl 2);
      eapply Nat.le_lt_trans; eauto.
Qed.

Lemma profile_location (user : User.t) (data : Profile.ProfileFormData.t) :
  Profile.location user data
  = [ ("latitude",
       Js.num match User.location user with
              | Some stored => Location.latitude stored
              | None => Js.of_Z 0
              end);
      ("longitude",
       Js.num match User.location user with
              | Some stored => Location.longitude stored
              | None => Js.of_Z 0
              end);
      ("address", Js.of_option (Profile.ProfileFormData.address data));
      ("city", Js.of_option (Profile.ProfileFormData.city data));
      ("state", Js.of_option (Profile.ProfileFormData.state data));
      ("zipCode", Js.of_option (Profile.ProfileFormData.zipCode data));
      ("country", Js.of_option (Profile.ProfileFormData.country data)) ].
Proof.
  unfold Profile.location. destruct (User.location user); reflexivity.
Qed.

Lemma names_of_option (o : option string) : Js.names (Js.of_option o) = [].
Proof. destruct o; reflexivity. Qed.

Lemma profile_handleSubmit_invalid (user : option User.t)
  (updated : Outcome User.t) (s : Profile.State) (issues : list Zod.Issue) :
  profileSchema (Profile.values s) = inl issues ->
  handleSubmit user updated s
  = (Handler.Normal tt, Profile.setErrors issues s, []).
Proof.
  intros E. unfold Profile.handleSubmit. rewrite E. reflexivity.
Qed.

Lemma profile_handleSubmit_valid (user : User.t) (updated : Outcome User.t)
  (s : Profile.State) (data : Profile.ProfileFormData.t) :
  profileSchema (Profile.values s) = inr data ->
  gateway_calls (Handler.effects_of (handleSubmit (Some user) updated s))
  = [updateUser (User.id user) (Profile.payload user data)]
  /\ Profile.isUpdating (Handler.state_of (handleSubmit (Some user) updated s))
     = false
  /\ Profile.values (Handler.state_of (handleSubmit (Some user) updated s))
     = Profile.values s.
Proof.
  intros E. unfold Profile.handleSubmit. rewrite E.
  destruct updated; repeat split; reflexivity.
Qed.

(** C4, as the code has it. An input whose name is shorter than 2
    characters or whose email fails the email test is sent back with an
    error on that field and no call is made. With a signed-in user, an
    accepted input makes exactly one update call, for the user's id; its
    payload has the name, email, phone number and blood type of the form
    and a [location] holding the address, city, state, zip code and
    country of the form together with the latitude and longitude of the
    user's stored location (0 and 0 when there is none). With no
    signed-in user no call is made. *)
Theorem profile_submit (user : option User.t) (updated : Outcome User.t)
  (s : Profile.State) :
  let input := Profile.values s in
  let run := handleSubmit user updated s in
  ((String.length (Profile.name input) < 2)%nat ->
   Handler.effects_of run = []
   /\ In (Zod.mkIssue "name" Zod.too_small
            (Some "Name must be at least 2 characters"))
        (Profile.errors (Handler.state_of run)))
  /\ (email_format (Profile.email input) = false ->
      Handler.effects_of run = []
      /\ In (Zod.mkIssue "email" Zod.invalid_string
               (Some "Please enter a valid email"))
           (Profile.errors (Handler.state_of run)))
  /\ (accepts input = true ->
      match user with
      | Some u =>
          exists payload,
            gateway_calls (Handler.effects_of run)
            = [updateUser (User.id u) payload]
            /\ payload
               = Js.obj
                   [ ("name", Js.str (Profile.name input));
                     ("email", Js.str (Profile.email input));
                     ("phoneNumber", Js.of_option (Profile.phoneNumber input));
                     ("location",
                      Js.obj
                        [ ("latitude",
                           Js.num match User.location u with
                                  | Some stored => Location.latitude stored
                                  | None => Js.of_Z 0
                                  end);
                          ("longitude",
                           Js.num match User.location u with
                                  | Some stored => Location.longitude stored
                                  | None => Js.of_Z 0
                                  end);
                          ("address", Js.of_option (Profile.address input));
                          ("city", Js.of_option (Profile.city input));
                          ("state", Js.of_option (Profile.state input));
                          ("zipCode", Js.of_option (Profile.zipCode input));
                          ("country", Js.of_option (Profile.country input)) ]);
                     ("bloodType", Js.of_option (Profile.bloodType input)) ]
            /\ Js.names payload
               = [ "name"; "email"; "phoneNumber"; "location"; "latitude";
                   "longitude"; "address"; "city"; "state"; "zipCode";
                   "country"; "bloodType" ]
      | None => Handler.effects_of run = []
      end).
Proof.
  intros input run. subst input run. split; [|split].
  - intros H.
    destruct (profileSchema_issues (Profile.values s) (or_introl H))
      as [issues [E [Hn _]]].
    rewrite (profile_handleSubmit_invalid _ _ _ _ E). split; [reflexivity|].
    apply Hn. exact H.
  - intros H.
    destruct (profileSchema_issues (Profile.values s) (or_intror H))
      as [issues [E [_ He]]].
    rewrite (profile_handleSubmit_invalid _ _ _ _ E). split; [reflexivity|].
    apply He. exact H.
  - unfold Profile.accepts.
    destruct (profileSchema (Profile.values s)) as [issues|data] eqn:E;
      [discriminate|].
    intros _. destruct user as [u|].
    + destruct (profile_handleSubmit_valid u updated s data E) as [Hcalls _].
      exists (Profile.payload u data). split; [exact Hcalls|].
      apply profileSchema_data in E. destruct E as [-> _].
      unfold Profile.payload. rewrite profile_location. simpl.
      split; [reflexivity|]. rewrite !names_of_option. reflexivity.
    + unfold Profile.handleSubmit. rewrite E. reflexivity.
Qed.

End ProfileForm.

Lemma profile_submit_witness :
  Handler.effects_of
    (Profile.handleSubmit Sample.BloodType_values Sample.email_format
       (Some Sample.donor) (Resolved Sample.donor) (Sample.profile_form "A"))
  = []
  /\ In (Zod.mkIssue "name" Zod.too_small
           (Some "Name must be at least 2 characters"))
       (Profile.errors
          (Handler.state_of
             (Profile.handleSubmit Sample.BloodType_values Sample.email_format
                (Some Sample.donor) (Resolved Sample.donor)
                (Sample.profile_form "A")))).
Proof.
  pose proof (profile_submit Sample.BloodType_values Sample.email_format
                (Some Sample.donor) (Resolved Sample.donor)
                (Sample.profile_form "A")) as H.
  simpl in H. destruct H as [Hname _]. apply Hname. lia.
Defined.

(** The update call of a signed-in user carries the coordinates of the
    stored location, which are no fields of the schema; with nobody signed
    in an accepted input makes no update call. *)
Lemma profile_payload_has_coordinates :
  Profile.accepts Sample.BloodType_values Sample.email_format
    (Profile.values (Sample.profile_form "Asha")) = true
  /\ gateway_calls
       (Handler.effects_of
          (Profile.handleSubmit Sample.BloodType_values Sample.email_format
             (Some Sample.donor) (Resolved Sample.donor)
             (Sample.profile_form "Asha")))
     = [updateUser "1"
          (Js.obj
             [ ("name", Js.str "Asha");
               ("email", Js.str "asha@example.org");
               ("phoneNumber", Js.str "");
               ("location",
                Js.obj
                  [ ("latitude", Js.num (Js.Finite (1285 # 100)));
                    ("longitude", Js.num (Js.Finite (7759 # 100)));
                    ("address", Js.str "4 Hill Street");
                    ("city", Js.str "Mysuru");
                    ("state", Js.str "KA");
                    ("zipCode", Js.str "570001");
                    ("country", Js.str "India") ]);
               ("bloodType", Js.str "O+") ])]
  /\ ~ In "latitude" Profile.schema_fields
  /\ ~ In "longitude" Profile.schema_fields
  /\ gateway_calls
       (Handler.effects_of
          (Profile.handleSubmit Sample.BloodType_values Sample.email_format
             None (Resolved Sample.donor) (Sample.profile_form "Asha")))
     = [].
Proof.
  split; [reflexivity|]. split; [reflexivity|].
  split; [|split; [|reflexivity]];
    unfold Profile.schema_fields; simpl; intuition discriminate.
Qed.

(** The profile form as first shown for a signed-in user is accepted as it
    stands. *)
Example default_profile_accepted :
  Profile.accepts Sample.BloodType_values Sample.email_format
    (Profile.defaultValues (Some Sample.donor)) = true
  /\ Profile.accepts Sample.BloodType_values Sample.email_format
       (Profile.defaultValues None) = false.
Proof. split; reflexivity. Qed.

(** ** More on the dashboard's fetch *)

Ltac fetch_cases user f T :=
  destruct f as [[?r|?e] [?a|?e] ?b [?n|?e]];
  destruct (Js.truthy (User.id user)) eqn:T;
  run_handler; simpl; try rewrite T; simpl.

(** When the three fetches resolve for a user with an id, the state holds
    what was fetched, whatever it held before, and the calls are the two
    joined ones followed by the one for the notifications. *)
Theorem fetch_all_resolved (user : User.t) (r : list BloodRequest.t)
  (a : list Appointment.t) (n : list Notification.t) (b : bool)
  (s : Home.State) :
  Js.truthy (User.id user) = true ->
  Home.fetchData (Some user)
    (Home.mkFetches (Resolved r) (Resolved a) b (Resolved n)) s
  = (Handler.Normal tt, Home.mkState r a n false,
     [ Gateway getBloodRequests; Gateway getAppointments;
       Gateway (getNotifications (User.id user)) ]).
Proof. intros T. run_handler. simpl. rewrite T. reflexivity. Qed.

Lemma fetch_all_resolved_witness :
  Home.fetchData (Some Sample.donor) Sample.fetches_ok Home.initial
  = (Handler.Normal tt,
     Home.mkState Sample.requests Sample.appointments Sample.notifications
       false,
     [ Gateway getBloodRequests; Gateway getAppointments;
       Gateway (getNotifications "1") ]).
Proof.
  exact (fetch_all_resolved Sample.donor Sample.requests Sample.appointments
           Sample.notifications false Home.initial eq_refl).
Defined.

(** However the fetches settle, the effect ends normally with the loading
    flag cleared, and it neither shows a toast nor navigates. *)
Theorem fetchData_settles (user : option User.t) (f : Home.Fetches)
  (s : Home.State) :
  let run := Home.fetchData user f s in
  Handler.completion_of run = Handler.Normal tt
  /\ Home.loading (Handler.state_of run) = false
  /\ List.filter is_toast (Handler.effects_of run) = []
  /\ List.filter is_navigate (Handler.effects_of run) = [].
Proof.
  destruct user as [u|].
  - fetch_cases u f T; try (destruct b); repeat split; reflexivity.
  - run_handler. simpl. repeat split; reflexivity.
Qed.

(** A run in which a fetch rejects leaves the three collections as they
    were: what an earlier run had fetched stays on display, and what the
    other fetches of the failing run brought is dropped. *)
Theorem failed_fetch_keeps_collections (user : User.t) (f : Home.Fetches)
  (s : Home.State) :
  fetch_rejects user f = true ->
  Handler.state_of (Home.fetchData (Some user) f s)
  = Home.mkState (Home.requests s) (Home.appointments s)
      (Home.notifications s) false.
Proof.
  unfold fetch_rejects.
  destruct f as [[r|e1] [a|e2] b [n|e3]]; simpl is_rejected;
    destruct (Js.truthy (User.id user)) eqn:T; simpl; try discriminate;
    intros _; run_handler; simpl; try rewrite T; simpl;
    try (destruct b); reflexivity.
Qed.

Lemma failed_fetch_keeps_collections_witness :
  Handler.state_of
    (Home.fetchData (Some Sample.donor)
       (Home.mkFetches (Resolved []) (Resolved []) false (Rejected "503"))
       (Home.mkState Sample.requests Sample.appointments Sample.notifications
          false))
  = Home.mkState Sample.requests Sample.appointments Sample.notifications
      false.
Proof.
  exact (failed_fetch_keeps_collections Sample.donor
           (Home.mkFetches (Resolved []) (Resolved []) false (Rejected "503"))
           (Home.mkState Sample.requests Sample.appointments
              Sample.notifications false)
           eq_refl).
Defined.

(** The notifications are asked for only after the requests and the
    appointments have both arrived, only for a signed-in user with a
    non-empty id, and only for that id. *)
Theorem notifications_fetched_after_join (user : option User.t)
  (f : Home.Fetches) (s : Home.State) (id : string) :
  In (getNotifications id)
    (gateway_calls (Handler.effects_of (Home.fetchData user f s))) <->
  exists u,
    user = Some u /\ id = User.id u /\ Js.truthy id = true
    /\ is_rejected (Home.requestsData f) = false
    /\ is_rejected (Home.appointmentsData f) = false.
Proof.
  destruct user as [u|].
  - fetch_cases u f T; try (destruct b); simpl; split;
      try (intros [H|[H|[H|[]]]]; try discriminate; injection H as <-;
           exists u; repeat split; auto);
      try (intros [H|[H|[]]]; discriminate);
      try (intros (u' & Hu & Hid & Ht & Hr & Ha); injection Hu as <-;
           subst id; simpl in *; first [congruence | auto]).
  - run_handler. simpl. split; [tauto|].
    intros (u' & Hu & _). discriminate.
Qed.

(** With nobody signed in the effect calls nothing and keeps the
    collections; the screen then shows nothing at all, not the spinner. *)
Theorem fetch_without_user (f : Home.Fetches) (s : Home.State)
  (now : nat -> Z) :
  let run := Home.fetchData None f s in
  Handler.effects_of run = []
  /\ Handler.state_of run
     = Home.mkState (Home.requests s) (Home.appointments s)
         (Home.notifications s) false
  /\ Home.render None now (Handler.state_of run) = Home.Null.
Proof. run_handler. simpl. repeat split; reflexivity. Qed.

(** ** More on what the dashboard shows *)

Lemma filter_from_length {A : Type} (f : nat -> A -> bool) (l : list A) :
  forall i, (List.length (Js.filter_from f i l) <= List.length l)%nat.
Proof.
  induction l as [|a l IH]; intros i; simpl.
  - apply Nat.le_refl.
  - destruct (f i a); simpl.
    + apply le_n_S. apply IH.
    + apply Nat.le_trans with (List.length l); [apply IH|apply Nat.le_succ_diag_r].
Qed.

Lemma filteredRequests_length (user : User.t) (requests : list BloodRequest.t) :
  (List.length (Home.filteredRequests user requests) <= List.length requests)%nat.
Proof.
  unfold Home.filteredRequests.
  destruct (UserRole_eqb (User.role user) DONOR),
    (UserRole_eqb (User.role user) REQUESTER);
    first [apply Nat.le_refl | apply filter_length_le].
Qed.

Lemma filteredAppointments_length (user : User.t)
  (appointments : list Appointment.t) :
  (List.length (Home.filteredAppointments user appointments)
   <= List.length appointments)%nat.
Proof.
  unfold Home.filteredAppointments.
  destruct (UserRole_eqb (User.role user) DONOR);
    first [apply Nat.le_refl | apply filter_length_le].
Qed.

Lemma filteredRequests_In (user : User.t) (requests : list BloodRequest.t)
  (r : BloodRequest.t) :
  In r (Home.filteredRequests user requests) ->
  In r requests
  /\ (User.role user = REQUESTER ->
      BloodRequest.requesterId r = User.id user).
Proof.
  unfold Home.filteredRequests. destruct (User.role user); simpl.
  - intros H. split; [exact H|discriminate].
  - intros H. apply filter_In in H. destruct H as [H E].
    apply String.eqb_eq in E. auto.
  - intros H. split; [exact H|discriminate].
Qed.

Lemma filteredAppointments_In (user : User.t)
  (appointments : list Appointment.t) (a : Appointment.t) :
  In a (Home.filteredAppointments user appointments) -> In a appointments.
Proof.
  unfold Home.filteredAppointments.
  destruct (UserRole_eqb (User.role user) DONOR); [|auto].
  intros H. apply filter_In in H. tauto.
Qed.

Lemma In_firstn {A : Type} (n : nat) (l : list A) (a : A) :
  In a (firstn n l) -> In a l.
Proof.
  revert l. induction n as [|n IH]; intros [|b l]; simpl; try tauto.
  intros [H|H]; auto.
Qed.

Lemma render_rendered (user : User.t) (now : nat -> Z) (s : Home.State)
  (d : Home.Dashboard) :
  Home.render (Some user) now s = Home.Rendered d ->
  d = Home.mkDashboard (User.name user)
        (UserRole_eqb (User.role user) REQUESTER)
        (Home.card1 user (Home.filteredRequests user (Home.requests s))
           (Home.urgentRequests
              (Home.filteredRequests user (Home.requests s))),
         Home.card2 user
           (Home.upcomingAppointments now
              (Home.filteredAppointments user (Home.appointments s))),
         Home.card3 user (Home.unreadNotifications (Home.notifications s)))
        (firstn 5 (Home.filteredRequests user (Home.requests s))).
Proof.
  unfold Home.render. destruct (Home.loading s); [discriminate|].
  intros H. injection H as <-. reflexivity.
Qed.

(** The figures of the first two stat cards nest: the urgent needs are
    counted among the requests shown, which are counted among the
    requests fetched, and the appointments shown are counted among the
    appointments fetched, at whatever instants the clock is read. *)
Theorem stat_cards_bounded (user : User.t) (now : nat -> Z) (s : Home.State)
  (d : Home.Dashboard) :
  Home.render (Some user) now s = Home.Rendered d ->
  exists shown urgent upcoming,
    Home.value (fst (fst (Home.statCards d))) = Home.Count shown
    /\ Home.caption_count (fst (fst (Home.statCards d))) = Some urgent
    /\ Home.value (snd (fst (Home.statCards d))) = Home.Count upcoming
    /\ (urgent <= shown)%nat
    /\ (shown <= List.length (Home.requests s))%nat
    /\ (upcoming <= List.length (Home.appointments s))%nat.
Proof.
  intros H. apply render_rendered in H. subst d.
  cbn [Home.statCards fst snd Home.card1 Home.card2 Home.value
       Home.caption_count].
  do 3 eexists. repeat split.
  - unfold Home.urgentRequests. apply filter_length_le.
  - apply filteredRequests_length.
  - unfold Home.upcomingAppointments, Js.filter.
    eapply Nat.le_trans; [apply filter_from_length|].
    apply filteredAppointments_length.
Qed.

Lemma stat_cards_bounded_witness :
  exists shown urgent upcoming,
    Home.value (Home.card1 Sample.requester [Sample.request_b] [])
    = Home.Count shown
    /\ Home.caption_count (Home.card1 Sample.requester [Sample.request_b] [])
       = Some urgent
    /\ Home.value (Home.card2 Sample.requester [Sample.appointment_x])
       = Home.Count upcoming
    /\ (urgent <= shown)%nat /\ (shown <= 2)%nat /\ (upcoming <= 2)%nat.
Proof.
  exact (stat_cards_bounded Sample.requester (fun _ => 1000%Z)
           (Home.mkState Sample.requests Sample.appointments
              Sample.notifications false)
           _ eq_refl).
Defined.

(** The request list of the dashboard has at most five rows, all of them
    fetched requests; for a requester every row is a request of their
    own, and for the other roles the rows are the first five fetched. *)
Theorem listed_requests (user : User.t) (now : nat -> Z) (s : Home.State)
  (d : Home.Dashboard) :
  Home.render (Some user) now s = Home.Rendered d ->
  (List.length (Home.requestList d) <= 5)%nat
  /\ (forall r,
        In r (Home.requestList d) ->
        In r (Home.requests s)
        /\ (User.role user = REQUESTER ->
            BloodRequest.requesterId r = User.id user))
  /\ (User.role user <> REQUESTER ->
      Home.requestList d = firstn 5 (Home.requests s)).
Proof.
  intros H. apply render_rendered in H. subst d. cbn [Home.requestList].
  split; [|split].
  - apply firstn_le_length.
  - intros r Hin. apply In_firstn in Hin.
    apply filteredRequests_In. exact Hin.
  - intros Hrole. unfold Home.filteredRequests.
    destruct (User.role user); simpl; try reflexivity. contradiction.
Qed.

Lemma listed_requests_witness :
  Home.requestList
    (Home.mkDashboard "Ravi" true
       (Home.card1 Sample.requester [Sample.request_b] [],
        Home.card2 Sample.requester [Sample.appointment_x],
        Home.card3 Sample.requester [Notification.mk "n1" false])
       [Sample.request_b])
  = [Sample.request_b]
  /\ forall r,
       In r [Sample.request_b] ->
       In r Sample.requests
       /\ (REQUESTER = REQUESTER -> BloodRequest.requesterId r = "2").
Proof.
  split; [reflexivity|].
  exact (proj1 (proj2 (listed_requests Sample.requester (fun _ => 1000%Z)
                         (Home.mkState Sample.requests Sample.appointments
                            Sample.notifications false)
                         _ eq_refl))).
Defined.

(** For a donor or a requester the third stat card counts the
    notifications not yet read: together with the read ones they make up
    all the notifications, and the figure is 0 exactly when all are
    read. *)
Theorem unread_count (user : User.t) (notifications : list Notification.t) :
  User.role user <> ADMIN ->
  exists unread,
    Home.value (Home.card3 user (Home.unreadNotifications notifications))
    = Home.Count unread
    /\ (unread + List.length (List.filter Notification.read notifications)
        = List.length notifications)%nat
    /\ (unread = 0%nat <->
        forall n, In n notifications -> Notification.read n = true).
Proof.
  intros Hrole. exists (List.length (Home.unreadNotifications notifications)).
  split; [|split].
  - unfold Home.card3. destruct (User.role user); simpl; try reflexivity.
    contradiction.
  - unfold Home.unreadNotifications.
    rewrite Nat.add_comm. apply filter_length.
  - unfold Home.unreadNotifications. split.
    + intros H n Hin. destruct (Notification.read n) eqn:E; [reflexivity|].
      assert (Hn : In n (List.filter (fun n => negb (Notification.read n))
                           notifications)).
      { apply filter_In. rewrite E. auto. }
      destruct (List.filter (fun n => negb (Notification.read n))
                  notifications); [contradiction|discriminate].
    + intros H.
      induction notifications as [|n l IH]; [reflexivity|]. simpl.
      rewrite (H n (or_introl eq_refl)). simpl.
      apply IH. intros m Hm. apply H. right. exact Hm.
Qed.

Lemma unread_count_witness :
  exists unread,
    Home.value
      (Home.card3 Sample.donor (Home.unreadNotifications Sample.notifications))
    = Home.Count unread
    /\ (unread + 1 = 2)%nat.
Proof.
  destruct (unread_count Sample.donor Sample.notifications)
    as [unread [H1 [H2 _]]]; [discriminate|].
  exists unread. split; [exact H1|exact H2].
Defined.

Lemma urgency_cases (r : BloodRequest.t) :
  (BloodRequest.urgency r = "critical"
   /\ String.eqb (BloodRequest.urgency r) "critical" = true)
  \/ (BloodRequest.urgency r = "high"
      /\ String.eqb (BloodRequest.urgency r) "critical" = false
      /\ String.eqb (BloodRequest.urgency r) "high" = true)
  \/ (BloodRequest.urgency r = "medium"
      /\ String.eqb (BloodRequest.urgency r) "critical" = false
      /\ String.eqb (BloodRequest.urgency r) "high" = false
      /\ String.eqb (BloodRequest.urgency r) "medium" = true)
  \/ (BloodRequest.urgency r <> "critical"
      /\ BloodRequest.urgency r <> "high"
      /\ BloodRequest.urgency r <> "medium"
      /\ String.eqb (BloodRequest.urgency r) "critical" = false
      /\ String.eqb (BloodRequest.urgency r) "high" = false
      /\ String.eqb (BloodRequest.urgency r) "medium" = false).
Proof.
  destruct (String.eqb_spec (BloodRequest.urgency r) "critical") as [E|N1];
    [left; auto|].
  destruct (String.eqb_spec (BloodRequest.urgency r) "high") as [E|N2];
    [right; left; auto|].
  destruct (String.eqb_spec (BloodRequest.urgency r) "medium") as [E|N3];
    [right; right; left; auto|].
  right. right. right. auto 10.
Qed.

(** The badge and the icon of a request row agree with the urgent count:
    a listed request counts as urgent exactly when its badge is not the
    "secondary" one; the alert icon goes with the "destructive" badge and
    with the urgency "critical" only; and a row is green for every
    urgency other than "critical", "high" and "medium", known or not. *)
Theorem badge_marks_urgent (filteredRequests : list BloodRequest.t)
  (r : BloodRequest.t) :
  (In r (Home.urgentRequests filteredRequests) <->
   In r filteredRequests /\ HomeView.badgeVariant r <> "secondary")
  /\ (HomeView.rowIcon r = HomeView.AlertTriangle <->
      BloodRequest.urgency r = "critical")
  /\ (HomeView.rowIcon r = HomeView.AlertTriangle <->
      HomeView.badgeVariant r = "destructive")
  /\ (HomeView.rowTone r = "bg-green-200 text-green-700" <->
      BloodRequest.urgency r <> "critical"
      /\ BloodRequest.urgency r <> "high"
      /\ BloodRequest.urgency r <> "medium").
Proof.
  assert (Hbadge : HomeView.badgeVariant r <> "secondary" <->
                   BloodRequest.urgency r = "high"
                   \/ BloodRequest.urgency r = "critical").
  { unfold HomeView.badgeVariant.
    destruct (urgency_cases r)
      as [[E C]|[[E [C H]]|[[E [C [H M]]]|(N1 & N2 & N3 & C & H & M)]]];
      rewrite ?C, ?H; split; intros K; try discriminate; auto.
    - contradiction.
    - destruct K as [K|K]; rewrite K in E; discriminate.
    - contradiction.
    - destruct K as [K|K]; contradiction. }
  split; [|split; [|split]].
  - unfold Home.urgentRequests.
    rewrite filter_In, orb_true_iff, !string_eqb_true, Hbadge. reflexivity.
  - unfold HomeView.rowIcon.
    destruct (String.eqb_spec (BloodRequest.urgency r) "critical");
      split; intros K; auto; try discriminate; contradiction.
  - unfold HomeView.rowIcon, HomeView.badgeVariant.
    destruct (String.eqb (BloodRequest.urgency r) "critical");
      [tauto|].
    destruct (String.eqb (BloodRequest.urgency r) "high");
      split; intros K; discriminate.
  - unfold HomeView.rowTone.
    destruct (urgency_cases r)
      as [[E C]|[[E [C H]]|[[E [C [H M]]]|(N1 & N2 & N3 & C & H & M)]]];
      rewrite ?C, ?H, ?M; split; intros K;
      try discriminate; auto; destruct K as (K1 & K2 & K3); contradiction.
Qed.

(** The side card holds exactly one block, by role. For a requester it is
    the upcoming appointments: the notice when there is none, and
    otherwise at most three rows, each a fetched appointment dated
    strictly after the instant of the rendering. *)
Theorem side_card_by_role (user : User.t) (t : Z)
  (appointments : list Appointment.t) :
  let upcoming :=
    Home.upcomingAppointments (fun _ => t)
      (Home.filteredAppointments user appointments) in
  match User.role user with
  | DONOR => HomeView.sideContent user upcoming = [HomeView.Achievements]
  | ADMIN => HomeView.sideContent user upcoming = [HomeView.UserActivity]
  | REQUESTER =>
      (upcoming = []
       /\ HomeView.sideContent user upcoming
          = [HomeView.UpcomingAppointments HomeView.NoUpcomingAppointments])
      \/ (exists rows,
            HomeView.sideContent user upcoming
            = [HomeView.UpcomingAppointments (HomeView.AppointmentRows rows)]
            /\ rows <> []
            /\ (List.length rows <= 3)%nat
            /\ forall a,
                 In a rows ->
                 In a appointments
                 /\ exists d, Appointment.date a = Some d /\ (t < d)%Z)
  end.
Proof.
  intros upcoming. unfold HomeView.sideContent.
  destruct (User.role user) eqn:Hrole; simpl; try reflexivity.
  destruct upcoming as [|a0 rest] eqn:Eup; [left; auto|right].
  exists (firstn 3 (a0 :: rest)). split; [reflexivity|].
  split; [simpl; discriminate|]. split; [apply firstn_le_length|].
  intros a Hin. apply In_firstn in Hin. rewrite <- Eup in Hin.
  subst upcoming. rewrite upcoming_at_instant in Hin.
  apply filter_In in Hin. destruct Hin as [Hin Hgt].
  split.
  - apply (filteredAppointments_In _ _ _ Hin).
  - apply Date_gt_iff. exact Hgt.
Qed.

(** Where the dashboard can lead: the request list is one click away for
    every role, the request form for requesters only, the user list for
    administrators only, and the donation history for donors only. *)
Theorem dashboard_routes_by_role (user : User.t) :
  let routes := map Button.to (HomeView.buttons user) in
  In "/requests" routes
  /\ (In "/requests/new" routes <-> User.role user = REQUESTER)
  /\ (In "/users" routes <-> User.role user = ADMIN)
  /\ (In "/donation-history" routes <-> User.role user = DONOR).
Proof.
  unfold HomeView.buttons, HomeView.headerButtons, HomeView.requestsFooter,
    HomeView.sideFooter, HomeView.actionButtons.
  destruct (User.role user); simpl; repeat split;
    try (intros; discriminate); try tauto; try congruence;
    try (intros H; repeat (destruct H as [H|H]; try discriminate);
         contradiction).
Qed.

(** ** More on the request-creation form *)

Lemma number_min_max_one_issue (lo_message hi_message : string)
  (n : Js.number) (issues : list (Zod.IssueCode * option string)) :
  Zod.number_min_max (Js.of_Z 1) lo_message (Js.of_Z 10) hi_message n
  = inl issues ->
  exists i, issues = [i].
Proof.
  destruct n as [|[|]|q]; simpl.
  - intros H. injection H as <-. eauto.
  - intros H. injection H as <-. eauto.
  - intros H. injection H as <-. eauto.
  - unfold Js.gt. simpl.
    destruct (Js.Qltb q (inject_Z 1)) eqn:Elo;
      destruct (Js.Qltb (inject_Z 10) q) eqn:Ehi; simpl;
      intros H; try discriminate; try (injection H as <-; eauto).
    apply Qltb_lt in Elo. apply Qltb_lt in Ehi.
    exfalso. assert (K : (inject_Z 10 < inject_Z 1)%Q).
    { eapply Qlt_trans; eauto. }
    unfold Qlt in K. simpl in K. lia.
Qed.

Lemma nativeEnum_one_issue (values : list string)
  (required_error : option string) (input : option string)
  (issues : list (Zod.IssueCode * option string)) :
  Zod.nativeEnum values required_error input = inl issues ->
  exists i, issues = [i].
Proof.
  unfold Zod.nativeEnum. destruct input as [s|].
  - destruct (existsb (String.eqb s) values); [discriminate|].
    intros H. injection H as <-. eauto.
  - intros H. injection H as <-. eauto.
Qed.

Lemma at_path_one {A : Type} (key : string) (r : Zod.Parsed A) :
  (forall issues, r = inl issues -> exists i, issues = [i]) ->
  map Zod.path (Zod.at_path key r)
  = match r with
    | inl _ => [key]
    | inr _ => []
    end.
Proof.
  destruct r as [issues|a]; [|reflexivity].
  intros H. destruct (H issues eq_refl) as [i ->]. reflexivity.
Qed.

Section RequestFormMore.
Variable BloodType_values : list string.

Local Abbreviation requestSchema := (NewRequest.requestSchema BloodType_values).
Local Abbreviation accepts := (NewRequest.accepts BloodType_values).
Local Abbreviation handleSubmit := (NewRequest.handleSubmit BloodType_values).

(** The issues of a rejected input are on the blood type, the quantity
    and the urgency only, at most one for each and in that order; the notes
    and the expiry date never carry one. *)
Theorem request_issue_fields (input : NewRequest.FormValues)
  (issues : list Zod.Issue) :
  requestSchema input = inl issues ->
  exists b q u : bool,
    map Zod.path issues
    = ((if b then ["bloodType"] else [])
       ++ (if q then ["quantity"] else [])
       ++ (if u then ["urgency"] else []))%list
    /\ b || q || u = true
    /\ Zod.has_error "notes" issues = false
    /\ Zod.has_error "expireAt" issues = false.
Proof.
  unfold NewRequest.requestSchema. rewrite !optional_string.
  pose proof (nativeEnum_one_issue BloodType_values
                (Some "Please select a blood type")
                (NewRequest.bloodType input)) as Hb.
  pose proof (number_min_max_one_issue "Quantity must be at least 1 unit"
                "Quantity cannot exceed 10 units"
                (NewRequest.quantity input)) as Hq.
  pose proof (nativeEnum_one_issue UrgencyLevel_values
                (Some "Please select an urgency level")
                (NewRequest.urgency input)) as Hu.
  destruct (Zod.nativeEnum BloodType_values _ (NewRequest.bloodType input))
    as [ib|vb];
    destruct (Zod.number_min_max _ _ _ _ (NewRequest.quantity input))
      as [iq|vq];
    destruct (Zod.nativeEnum UrgencyLevel_values _ (NewRequest.urgency input))
      as [iu|vu];
    try discriminate;
    try (destruct (Hb _ eq_refl) as [xb ->]);
    try (destruct (Hq _ eq_refl) as [xq ->]);
    try (destruct (Hu _ eq_refl) as [xu ->]);
    intros H; injection H as <-; simpl.
  - exists true, true, true. auto.
  - exists true, true, false. auto.
  - exists true, false, true. auto.
  - exists true, false, false. auto.
  - exists false, true, true. auto.
  - exists false, true, false. auto.
  - exists false, false, true. auto.
Qed.

(** What follows the create call of a signed-in user: the call comes
    first, then exactly one toast, the destructive one exactly when the
    call rejects, and the move to the request list exactly when it
    resolves. *)
Theorem create_outcome (user : User.t) (created : Outcome BloodRequest.t)
  (s : NewRequest.State) :
  accepts (NewRequest.values s) = true ->
  let effects := Handler.effects_of (handleSubmit (Some user) created s) in
  (exists p rest,
     effects = Gateway (createBloodRequest p) :: rest
     /\ gateway_calls rest = [])
  /\ (exists toast,
        List.filter is_toast effects = [ShowToast toast]
        /\ Toast.destructive toast = is_rejected created)
  /\ List.filter is_navigate effects
     = (if is_rejected created then [] else [Navigate "/requests"]).
Proof.
  unfold NewRequest.accepts.
  destruct (requestSchema (NewRequest.values s)) as [issues|data] eqn:E;
    [discriminate|].
  intros _. cbv zeta. rewrite (handleSubmit_valid _ _ _ _ _ E).
  destruct created as [r|e]; simpl; repeat split; eauto.
Qed.

(** A submission started on an idle form ends on an idle form with the
    same values, whatever the input, the session and the answer of the
    Data Gateway; the handler never throws, and an accepted input leaves
    no error behind. *)
Theorem submit_returns_to_idle (user : option User.t)
  (created : Outcome BloodRequest.t) (s : NewRequest.State) :
  NewRequest.isSubmitting s = false ->
  let run := handleSubmit user created s in
  Handler.completion_of run = Handler.Normal tt
  /\ NewRequest.isSubmitting (Handler.state_of run) = false
  /\ NewRequest.values (Handler.state_of run) = NewRequest.values s
  /\ NewRequestView.submitButton (Handler.state_of run)
     = NewRequestView.mkSubmitButton false "Create Request"
  /\ (accepts (NewRequest.values s) = true ->
      NewRequest.errors (Handler.state_of run) = []).
Proof.
  intros Hidle. cbv zeta. unfold NewRequest.accepts.
  destruct (requestSchema (NewRequest.values s)) as [issues|data] eqn:E.
  - rewrite (handleSubmit_invalid _ _ _ _ _ E).
    unfold NewRequestView.submitButton. simpl. rewrite Hidle.
    repeat split; try reflexivity. discriminate.
  - rewrite (handleSubmit_valid _ _ _ _ _ E).
    destruct user as [u|]; [destruct created|];
      unfold NewRequestView.submitButton; simpl; rewrite ?Hidle;
      repeat split; reflexivity.
Qed.

(** The payload carries an expiry date exactly when the field holds a
    non-empty string, and then the date is built from that string. *)
Theorem expiry_sent_when_filled (user : User.t)
  (created : Outcome BloodRequest.t) (s : NewRequest.State) :
  accepts (NewRequest.values s) = true ->
  exists p,
    gateway_calls (Handler.effects_of (handleSubmit (Some user) created s))
    = [createBloodRequest p]
    /\ forall e,
         CreatePayload.expireAt p = Some e <->
         NewRequest.expireAt (NewRequest.values s) = Some e /\ e <> "".
Proof.
  unfold NewRequest.accepts.
  destruct (requestSchema (NewRequest.values s)) as [issues|data] eqn:E;
    [discriminate|].
  intros _. rewrite (handleSubmit_valid _ _ _ _ _ E).
  apply requestSchema_data in E.
  destruct E as (_ & _ & _ & _ & _ & _ & _ & He).
  exists (NewRequest.payload user data).
  split; [destruct created; reflexivity|].
  intros e. unfold NewRequest.payload. simpl. rewrite He.
  destruct (NewRequest.expireAt (NewRequest.values s)) as [x|].
  - unfold Js.truthy. destruct (String.eqb_spec x ""); simpl.
    + subst x. split; [discriminate|]. intros [K1 K2]. congruence.
    + split.
      * intros K. injection K as <-. auto.
      * intros [K _]. exact K.
  - split; [discriminate|]. intros [K _]. discriminate.
Qed.

(** The slider and the schema agree on the quantity: every position of
    the slider is a whole number that the schema accepts, and every whole
    number that the schema accepts is a position of the slider. *)
Theorem slider_bounds_match_schema (input : NewRequest.FormValues) :
  accepts (NewRequestView.with_quantity (Js.of_Z 1) input) = true ->
  let slider := NewRequestView.quantitySlider in
  let position i :=
    (NewRequestView.min slider + i * NewRequestView.step slider)%Z in
  (forall i,
     (0 <= i)%Z -> (position i <= NewRequestView.max slider)%Z ->
     accepts (NewRequestView.with_quantity (Js.of_Z (position i)) input) = true
     /\ Js.isInteger (Js.of_Z (position i)) = true)
  /\ (forall k,
        accepts (NewRequestView.with_quantity (Js.of_Z k) input) = true ->
        exists i,
          (0 <= i)%Z /\ k = position i
          /\ (position i <= NewRequestView.max slider)%Z).
Proof.
  intros Hone. cbv zeta. unfold NewRequestView.quantitySlider.
  cbn [NewRequestView.min NewRequestView.max NewRequestView.step].
  apply accepts_iff in Hone. destruct Hone as (_ & Hb & Hu).
  unfold NewRequestView.with_quantity in Hb, Hu.
  cbn [NewRequest.bloodType NewRequest.urgency] in Hb, Hu.
  split.
  - intros i Hi Hmax. split.
    + apply accepts_iff. unfold NewRequestView.with_quantity.
      cbn [NewRequest.bloodType NewRequest.urgency NewRequest.quantity].
      split; [|auto]. unfold within, Js.of_Z.
      rewrite <- !Zle_Qle. lia.
    + unfold Js.isInteger, Js.of_Z, inject_Z.
      cbn [Qnum Qden]. rewrite Z.mod_1_r. reflexivity.
  - intros k Hk. apply accepts_iff in Hk. destruct Hk as (Hq & _).
    unfold NewRequestView.with_quantity in Hq.
    cbn [NewRequest.quantity] in Hq. unfold within, Js.of_Z in Hq.
    rewrite <- !Zle_Qle in Hq.
    exists (k - 1)%Z. lia.
Qed.

(** What the "Location Information" card shows is what is sent: when it
    shows a location, the payload carries the stored location with that
    address, city, state, zip code and country; when it shows the notice
    with the link to the profile, the payload carries the placeholder. *)
Theorem shown_location_is_sent (user : User.t)
  (created : Outcome BloodRequest.t) (s : NewRequest.State) :
  accepts (NewRequest.values s) = true ->
  exists p,
    gateway_calls (Handler.effects_of (handleSubmit (Some user) created s))
    = [createBloodRequest p]
    /\ match NewRequestView.locationCard (Some user) with
       | NewRequestView.RequestLocation address city state zipCode country =>
           User.location user = Some (CreatePayload.location p)
           /\ Location.address (CreatePayload.location p) = address
           /\ Location.city (CreatePayload.location p) = city
           /\ Location.state (CreatePayload.location p) = state
           /\ Location.zipCode (CreatePayload.location p) = zipCode
           /\ Location.country (CreatePayload.location p) = country
       | NewRequestView.LocationNotSet link =>
           User.location user = None
           /\ CreatePayload.location p
              = Location.mk (Js.of_Z 0) (Js.of_Z 0) "Unknown" "Unknown"
                  "Unknown" "00000" "Unknown"
           /\ Button.to link = "/profile"
       end.
Proof.
  unfold NewRequest.accepts.
  destruct (requestSchema (NewRequest.values s)) as [issues|data] eqn:E;
    [discriminate|].
  intros _. rewrite (handleSubmit_valid _ _ _ _ _ E).
  exists (NewRequest.payload user data).
  split; [destruct created; reflexivity|].
  unfold NewRequestView.locationCard, NewRequest.payload. simpl.
  destruct (User.location user) as [l|]; simpl; repeat split; reflexivity.
Qed.

End RequestFormMore.

Lemma request_issue_fields_witness :
  exists b q u : bool,
    map Zod.path
      [ Zod.mkIssue "bloodType" Zod.invalid_type
          (Some "Please select a blood type");
        Zod.mkIssue "quantity" Zod.too_big
          (Some "Quantity cannot exceed 10 units") ]
    = ((if b then ["bloodType"] else [])
       ++ (if q then ["quantity"] else [])
       ++ (if u then ["urgency"] else []))%list
    /\ b || q || u = true.
Proof.
  destruct (request_issue_fields Sample.BloodType_values
              (NewRequest.mkValues None (Js.of_Z 11) (Some "high") (Some "")
                 None)
              _ eq_refl) as (b & q & u & H1 & H2 & _).
  exists b, q, u. split; [exact H1|exact H2].
Defined.

Lemma create_outcome_witness :
  List.filter is_navigate
    (Handler.effects_of
       (NewRequest.handleSubmit Sample.BloodType_values
          (Some Sample.requester) (Resolved Sample.request_b)
          (Sample.request_form (Js.of_Z 3))))
  = [Navigate "/requests"].
Proof.
  exact (proj2 (proj2 (create_outcome Sample.BloodType_values
                         Sample.requester (Resolved Sample.request_b)
                         (Sample.request_form (Js.of_Z 3)) eq_refl))).
Defined.

Lemma submit_returns_to_idle_witness :
  NewRequest.isSubmitting
    (Handler.state_of
       (NewRequest.handleSubmit Sample.BloodType_values
          (Some Sample.requester) (Rejected "500")
          (Sample.request_form (Js.of_Z 3))))
  = false.
Proof.
  exact (proj1 (proj2 (submit_returns_to_idle Sample.BloodType_values
                         (Some Sample.requester) (Rejected "500")
                         (Sample.request_form (Js.of_Z 3)) eq_refl))).
Defined.

Lemma expiry_sent_when_filled_witness :
  exists p,
    gateway_calls
      (Handler.effects_of
         (NewRequest.handleSubmit Sample.BloodType_values
            (Some Sample.requester) (Resolved Sample.request_b)
            (NewRequest.mkState false
               (NewRequest.mkValues (Some "O+") (Js.of_Z 3) (Some "high")
                  (Some "") (Some ""))
               [])))
    = [createBloodRequest p]
    /\ CreatePayload.expireAt p <> Some "".
Proof.
  destruct (expiry_sent_when_filled Sample.BloodType_values Sample.requester
              (Resolved Sample.request_b)
              (NewRequest.mkState false
                 (NewRequest.mkValues (Some "O+") (Js.of_Z 3) (Some "high")
                    (Some "") (Some ""))
                 [])
              eq_refl) as [p [H1 H2]].
  exists p. split; [exact H1|].
  intros K. apply H2 in K. destruct K as [_ K]. apply K. reflexivity.
Defined.

Lemma slider_bounds_match_schema_witness :
  NewRequest.accepts Sample.BloodType_values
    (NewRequestView.with_quantity (Js.of_Z 10)
       (NewRequest.values (Sample.request_form (Js.of_Z 3)))) = true.
Proof.
  exact (proj1 (proj1 (slider_bounds_match_schema Sample.BloodType_values
                         (NewRequest.values (Sample.request_form (Js.of_Z 3)))
                         eq_refl)
                  9%Z ltac:(lia) ltac:(simpl; lia))).
Defined.

Lemma shown_location_is_sent_witness :
  exists p,
    gateway_calls
      (Handler.effects_of
         (NewRequest.handleSubmit Sample.BloodType_values (Some Sample.donor)
            (Resolved Sample.request_b) (Sample.request_form (Js.of_Z 3))))
    = [createBloodRequest p]
    /\ Location.city (CreatePayload.location p) = "Bengaluru".
Proof.
  destruct (shown_location_is_sent Sample.BloodType_values Sample.donor
              (Resolved Sample.request_b) (Sample.request_form (Js.of_Z 3))
              eq_refl) as [p [H1 H2]].
  exists p. split; [exact H1|].
  simpl in H2. destruct H2 as (_ & _ & H & _). exact H.
Defined.

(** ** More on the profile screen *)

Section ProfileFormMore.
Variable BloodType_values : list string.
Variable email_format : string -> bool.

Local Abbreviation profileSchema :=
  (Profile.profileSchema BloodType_values email_format).
Local Abbreviation accepts := (Profile.accepts BloodType_values email_format).
Local Abbreviation handleSubmit :=
  (Profile.handleSubmit BloodType_values email_format).

(** The issues of a rejected profile are on the name, the email and the
    blood type only, one for each field at fault and in that order: the
    name when it is shorter than 2 characters, the email when it fails
    the email test, and the blood type when one is given that is not of
    the enumeration. *)
Theorem profile_issue_fields (input : Profile.FormValues)
  (issues : list Zod.Issue) :
  profileSchema input = inl issues ->
  exists n e b : bool,
    map Zod.path issues
    = ((if n then ["name"] else [])
       ++ (if e then ["email"] else [])
       ++ (if b then ["bloodType"] else []))%list
    /\ n || e || b = true
    /\ (n = true <-> (String.length (Profile.name input) < 2)%nat)
    /\ (e = true <-> email_format (Profile.email input) = false)
    /\ (b = true <->
        exists x, Profile.bloodType input = Some x /\ ~ In x BloodType_values).
Proof.
  unfold Profile.profileSchema. rewrite !optional_string.
  unfold Zod.string_min, Zod.string_email, Zod.optional.
  pose proof (fun x => nativeEnum_spec BloodType_values None (Some x)) as Sb.
  assert (Hnone : ~ exists x : string,
                      @None string = Some x /\ ~ In x BloodType_values).
  { intros [x [K _]]. discriminate. }
  destruct (String.length (Profile.name input) <? 2)%nat eqn:En;
    [apply Nat.ltb_lt in En|apply Nat.ltb_ge in En];
    destruct (email_format (Profile.email input)) eqn:Ee;
    destruct (Profile.bloodType input) as [x|] eqn:Eb;
    try (specialize (Sb x);
         destruct (Zod.nativeEnum BloodType_values None (Some x))
           as [ix|vx] eqn:Ev;
         [destruct Sb as [[K _]|[y [K1 [K2 K3]]]];
          [discriminate|injection K1 as <-; subst ix]
         |destruct Sb as [K1 K2]; injection K1 as <-]);
    try discriminate; intros H; injection H as <-; simpl.
  all: match goal with
       | |- exists n e b, ?l = _ /\ _ =>
           match l with
           | ["name"; "email"; "bloodType"] => exists true, true, true
           | ["name"; "email"] => exists true, true, false
           | ["name"; "bloodType"] => exists true, false, true
           | ["name"] => exists true, false, false
           | ["email"; "bloodType"] => exists false, true, true
           | ["email"] => exists false, true, false
           | ["bloodType"] => exists false, false, true
           end
       end.
  all: repeat split; intros; try reflexivity; try discriminate; try lia;
    try (exfalso; lia); try contradiction; eauto;
    try match goal with
        | K : exists _, Some _ = Some _ /\ _ |- _ =>
            destruct K as [? [K' K'']]; injection K' as <-; contradiction
        end.
Qed.

(** A profile update started on an idle form ends on an idle form with
    the same values and never navigates; with a signed-in user and an
    accepted input it makes its call and then shows exactly one toast,
    "Update failed" when the call rejects and "Profile updated" when it
    resolves. *)
Theorem profile_update_outcome (user : option User.t)
  (updated : Outcome User.t) (s : Profile.State) :
  Profile.isUpdating s = false ->
  let run := handleSubmit user updated s in
  Handler.completion_of run = Handler.Normal tt
  /\ Profile.isUpdating (Handler.state_of run) = false
  /\ Profile.values (Handler.state_of run) = Profile.values s
  /\ List.filter is_navigate (Handler.effects_of run) = []
  /\ (accepts (Profile.values s) = true ->
      forall u,
        user = Some u ->
        exists payload,
          Handler.effects_of run
          = [ Gateway (updateUser (User.id u) payload);
              ShowToast
                (if is_rejected updated then
                   Toast.mk "Update failed"
                     "There was a problem updating your profile." true
                 else
                   Toast.mk "Profile updated"
                     "Your profile information has been updated successfully."
                     false) ]).
Proof.
  intros Hidle. cbv zeta. unfold Profile.accepts, Profile.handleSubmit.
  destruct (profileSchema (Profile.values s)) as [issues|data] eqn:E.
  - simpl. rewrite Hidle. repeat split; try reflexivity. discriminate.
  - destruct user as [u|]; [destruct updated|]; simpl; rewrite ?Hidle;
      repeat split; try reflexivity;
      intros _ u' K; try discriminate; injection K as <-; eauto.
Qed.

(** Round trip of an untouched profile. When the form is submitted as it
    was filled from a user with a stored location, the payload gives the
    user's own name, email, blood type and stored location back, field for
    field; a missing phone number is sent as the empty string. *)
Theorem untouched_profile_round_trip (user : User.t) (stored : Location.t)
  (updated : Outcome User.t) :
  User.location user = Some stored ->
  accepts (Profile.defaultValues (Some user)) = true ->
  gateway_calls
    (Handler.effects_of
       (handleSubmit (Some user) updated (ProfileView.untouched user)))
  = [updateUser (User.id user)
       (Js.obj
          [ ("name", Js.str (User.name user));
            ("email", Js.str (User.email user));
            ("phoneNumber",
             Js.str match User.phoneNumber user with
                    | Some phone => phone
                    | None => ""
                    end);
            ("location", Js.obj (Location.to_object stored));
            ("bloodType", Js.of_option (User.bloodType user)) ])].
Proof.
  intros Hloc. unfold Profile.accepts.
  destruct (profileSchema (Profile.defaultValues (Some user)))
    as [issues|data] eqn:E; [discriminate|].
  intros _.
  destruct (profile_handleSubmit_valid BloodType_values email_format user
              updated (ProfileView.untouched user) data E) as [Hcalls _].
  rewrite Hcalls. apply profileSchema_data in E. destruct E as [-> _].
  unfold Profile.payload. rewrite profile_location.
  unfold Profile.defaultValues. rewrite Hloc.
  destruct (User.phoneNumber user); reflexivity.
Qed.

(** An untouched profile of a user with no stored location writes one:
    latitude 0, longitude 0 and empty strings for the address, the city,
    the state, the zip code and the country. *)
Theorem untouched_profile_writes_location (user : User.t)
  (updated : Outcome User.t) :
  User.location user = None ->
  accepts (Profile.defaultValues (Some user)) = true ->
  exists payload,
    gateway_calls
      (Handler.effects_of
         (handleSubmit (Some user) updated (ProfileView.untouched user)))
    = [updateUser (User.id user) (Js.obj payload)]
    /\ List.filter (fun kv => String.eqb (fst kv) "location") payload
       = [("location",
           Js.obj
             [ ("latitude", Js.num (Js.of_Z 0));
               ("longitude", Js.num (Js.of_Z 0));
               ("address", Js.str "");
               ("city", Js.str "");
               ("state", Js.str "");
               ("zipCode", Js.str "");
               ("country", Js.str "") ])].
Proof.
  intros Hloc. unfold Profile.accepts.
  destruct (profileSchema (Profile.defaultValues (Some user)))
    as [issues|data] eqn:E; [discriminate|].
  intros _.
  destruct (profile_handleSubmit_valid BloodType_values email_format user
              updated (ProfileView.untouched user) data E) as [Hcalls _].
  rewrite Hcalls. apply profileSchema_data in E. destruct E as [-> _].
  unfold Profile.payload. rewrite profile_location.
  unfold Profile.defaultValues. rewrite Hloc.
  eexists. split; reflexivity.
Qed.

End ProfileFormMore.

Lemma profile_issue_fields_witness :
  exists n e b : bool,
    map Zod.path
      [ Zod.mkIssue "name" Zod.too_small
          (Some "Name must be at least 2 characters") ]
    = ((if n then ["name"] else [])
       ++ (if e then ["email"] else [])
       ++ (if b then ["bloodType"] else []))%list
    /\ (n = true <-> (1 < 2)%nat).
Proof.
  destruct (profile_issue_fields Sample.BloodType_values Sample.email_format
              (Profile.values (Sample.profile_form "A")) _ eq_refl)
    as (n & e & b & H1 & _ & H2 & _).
  exists n, e, b. split; [exact H1|exact H2].
Defined.

Lemma profile_update_outcome_witness :
  List.filter is_navigate
    (Handler.effects_of
       (Profile.handleSubmit Sample.BloodType_values Sample.email_format
          (Some Sample.donor) (Rejected "500") (Sample.profile_form "Asha")))
  = [].
Proof.
  exact (proj1 (proj2 (proj2 (proj2
           (profile_update_outcome Sample.BloodType_values Sample.email_format
              (Some Sample.donor) (Rejected "500")
              (Sample.profile_form "Asha") eq_refl))))).
Defined.

Lemma untouched_profile_round_trip_witness :
  gateway_calls
    (Handler.effects_of
       (Profile.handleSubmit Sample.BloodType_values Sample.email_format
          (Some Sample.donor) (Resolved Sample.donor)
          (ProfileView.untouched Sample.donor)))
  = [updateUser "1"
       (Js.obj
          [ ("name", Js.str "Asha");
            ("email", Js.str "asha@example.org");
            ("phoneNumber", Js.str "");
            ("location", Js.obj (Location.to_object Sample.clinic));
            ("bloodType", Js.str "O+") ])].
Proof.
  exact (untouched_profile_round_trip Sample.BloodType_values
           Sample.email_format Sample.donor Sample.clinic
           (Resolved Sample.donor) eq_refl eq_refl).
Defined.

Lemma untouched_profile_writes_location_witness :
  exists payload,
    gateway_calls
      (Handler.effects_of
         (Profile.handleSubmit Sample.BloodType_values Sample.email_format
            (Some Sample.requester) (Resolved Sample.requester)
            (ProfileView.untouched Sample.requester)))
    = [updateUser "2" (Js.obj payload)]
    /\ List.filter (fun kv => String.eqb (fst kv) "location") payload
       = [("location",
           Js.obj
             [ ("latitude", Js.num (Js.of_Z 0));
               ("longitude", Js.num (Js.of_Z 0));
               ("address", Js.str "");
               ("city", Js.str "");
               ("state", Js.str "");
               ("zipCode", Js.str "");
               ("country", Js.str "") ])].
Proof.
  exact (untouched_profile_writes_location Sample.BloodType_values
           Sample.email_format Sample.requester (Resolved Sample.requester)
           eq_refl eq_refl).
Defined.

(** *** Initials *)

Lemma substring_length_le (n m : nat) (s : string) :
  (String.length (substring n m s) <= m)%nat.
Proof.
  revert n m. induction s as [|c s IH]; intros [|n] [|m]; simpl;
    try apply Nat.le_refl; try apply Nat.le_0_l.
  - apply le_n_S. apply IH.
  - apply IH.
  - apply IH.
Qed.

Lemma split_space_starts (s : string) :
  exists w ws,
    ProfileView.split_space s = w :: ws
    /\ ProfileView.join (map ProfileView.first (w :: ws))
       = ProfileView.word_starts true s
    /\ ProfileView.join (map ProfileView.first ws)
       = ProfileView.word_starts false s.
Proof.
  induction s as [|c s IH].
  - exists "", []. repeat split; reflexivity.
  - destruct IH as (w & ws & Hs & Ht & Hf). simpl.
    destruct (Ascii.eqb c " ") eqn:Ec.
    + exists "", (w :: ws). rewrite Hs. repeat split; auto.
    + rewrite Hs. exists (String c w), ws. repeat split; auto.
      simpl. rewrite Hf. reflexivity.
Qed.

Lemma join_first_split (s : string) :
  ProfileView.join (map ProfileView.first (ProfileView.split_space s))
  = ProfileView.word_starts true s.
Proof.
  destruct (split_space_starts s) as (w & ws & Hs & Ht & _).
  rewrite Hs. exact Ht.
Qed.

Lemma word_starts_space (fresh : bool) (a b : string) :
  ProfileView.word_starts fresh (a ++ String " " b)
  = ProfileView.word_starts fresh a ++ ProfileView.word_starts true b.
Proof.
  revert fresh. induction a as [|c a IH]; intros fresh; simpl.
  - reflexivity.
  - destruct (Ascii.eqb c " "); [apply IH|].
    destruct fresh; simpl; rewrite IH; reflexivity.
Qed.

Lemma string_app_nil_r (s : string) : s ++ "" = s.
Proof. induction s as [|c s IH]; simpl; [reflexivity|rewrite IH; reflexivity]. Qed.

Section Initials.
Variable toUpperCase : string -> string.

Local Abbreviation getInitials := (ProfileView.getInitials toUpperCase).

(** The avatar's fallback text is at most two characters long, whatever
    the name and however upper-casing changes the length. *)
Theorem initials_at_most_two (name : string) :
  (String.length (getInitials name) <= 2)%nat.
Proof. unfold ProfileView.getInitials. apply substring_length_le. Qed.

(** The initials are taken from the characters that open the words of the
    name, a word being a run of characters other than the space: empty
    pieces between two spaces contribute nothing. *)
Theorem initials_open_words (name : string) :
  getInitials name
  = substring 0 2 (toUpperCase (ProfileView.word_starts true name)).
Proof. unfold ProfileView.getInitials. rewrite join_first_split. reflexivity. Qed.

(** Spaces before the name, after it, or doubled between two words do not
    change the initials. *)
Theorem initials_ignore_extra_spaces (a b : string) :
  getInitials (" " ++ a) = getInitials a
  /\ getInitials (a ++ " ") = getInitials a
  /\ getInitials (a ++ "  " ++ b) = getInitials (a ++ " " ++ b).
Proof.
  unfold ProfileView.getInitials. rewrite !join_first_split.
  split; [reflexivity|]. split.
  - rewrite word_starts_space. simpl. rewrite string_app_nil_r. reflexivity.
  - change (a ++ "  " ++ b) with (a ++ String " " (String " " b)).
    change (a ++ " " ++ b) with (a ++ String " " b).
    rewrite !word_starts_space. reflexivity.
Qed.

End Initials.

(** With an upper-casing of the letters a to z, the initials of a few
    names. *)
Example initials_samples :
  let upper c :=
    if ((97 <=? nat_of_ascii c) && (nat_of_ascii c <=? 122))%nat then
      ascii_of_nat (nat_of_ascii c - 32)
    else c in
  let toUpperCase :=
    fix go (s : string) : string :=
      match s with
      | EmptyString => ""
      | String c s' => String (upper c) (go s')
      end in
  ProfileView.getInitials toUpperCase "asha rao" = "AR"
  /\ ProfileView.getInitials toUpperCase "General  Hospital of Mysuru" = "GH"
  /\ ProfileView.getInitials toUpperCase "ravi" = "R"
  /\ ProfileView.getInitials toUpperCase "" = "".
Proof. repeat split; reflexivity. Qed.
